(** * KirkBot2 real-time performance monitor

    A shallow embedding of [src/real-time-performance-monitor.py]: the
    metrics buffer, the alert engine ([check_alerts], [create_alert]), the
    anomaly detector, the trend predictor and the endpoint collector of
    class [RealTimePerformanceMonitor].

    Modelling conventions.
    - A Python [float] (and the [int]s mixed with it) is an exact rational
      [Q]; rounding, infinities and NaN are not modelled.
    - A [datetime] is a number of microseconds since the epoch, in [Z].
    - The mutable attributes of the monitor object are the fields of
      [Monitor.t]; a method is a computation in the state-and-exception
      monad [M], which keeps the state reached when an exception is raised.
    - The three monitoring threads are interleaved at the granularity of one
      loop iteration ([event]); finer interleavings are not modelled.
    - SQLite, the notification transports and the logger are lists that
      record what was written to them; these calls always succeed, and a
      table row holds the values it was given (the conversion of a number
      to the REAL column type is not modelled).
    - [init] is the monitor constructed on a database file that does not
      exist yet, so both tables start empty; what holds with rows of
      earlier runs in the tables is stated for an arbitrary state. *)

From Stdlib Require Import ZArith QArith Qabs List Ascii String DecimalString Lia Lqa.
From Stdlib Require Import Sorted Permutation.
From stdpp Require Import base strings list gmap.

Local Open Scope string_scope.
Local Open Scope list_scope.

(** ** Exceptions and the monitor monad *)

Inductive exn : Type :=
| AttributeError      (* attribute lookup on an object that lacks it *)
| Timeout             (* requests.exceptions.Timeout *)
| ConnectionError.    (* any other failure of requests.get *)

Inductive outcome (A : Type) : Type :=
| Normal (a : A)
| Raised (e : exn).
Arguments Normal {A} a.
Arguments Raised {A} e.

(** ** Data model *)

(** The f-strings that build an alert message, as template and arguments. *)
Inductive Message : Type :=
| MsgCritical (metric_type : string) (value threshold : Q)
| MsgWarning (metric_type : string) (value threshold : Q)
| MsgAnomaly (metric_type : string) (value z_score : Q)
| MsgPredicted (metric_type : string) (predicted_value : Q)
| MsgEndpointStatus (name : string) (status_code : Z)
| MsgEndpointTimeout (name : string) (timeout : Q).

Record Metadata : Type := { url : string; status_code : Z }.

Module PerformanceMetric.
Record t : Type := mk {
  timestamp : Z;
  metric_type : string;
  value : Q;
  unit : string;
  source : string;
  metadata : option Metadata
}.
End PerformanceMetric.

(** The dataclass of lines 60-71: nine fields, none of them a source. *)
Module PerformanceAlert.
Record t : Type := mk {
  alert_id : string;
  metric_type : string;
  severity : string;
  threshold : Q;
  current_value : Q;
  message : Message;
  timestamp : Z;
  resolved : bool;
  resolved_at : option Z
}.
End PerformanceAlert.

(** One entry of [config["alerts"]]: a dict that may hold the keys
    "warning" and "critical". *)
Record Thresholds : Type := { warning : option Q; critical : option Q }.

Record Endpoint : Type := { name : string; endpoint_url : string; timeout : option Q }.

Module Config.
Record t : Type := mk {
  interval_seconds : Z;
  buffer_size : Z;
  alerts : gmap string Thresholds;
  endpoints : list Endpoint;
  email_enabled : bool;
  slack_enabled : bool;
  webhook_enabled : bool;
  anomaly_detection : bool;
  predictive_alerts : bool
}.
End Config.

Inductive Channel : Type := Email | Slack | Webhook.

Inductive LogRecord : Type :=
| LogAlert (msg : Message)
| LogError (origin : string) (e : exn).

Module Monitor.
Record t : Type := mk {
  config : Config.t;
  metrics_buffer : list PerformanceMetric.t;
  alerts : list PerformanceAlert.t;
  db_metrics : list PerformanceMetric.t;
  db_alerts : list PerformanceAlert.t;
  outbox : list (Channel * PerformanceAlert.t);
  log : list LogRecord;
  clock : Z
}.
End Monitor.

Definition M (A : Type) : Type := Monitor.t -> outcome A * Monitor.t.

Definition ret {A} (a : A) : M A := fun st => (Normal a, st).

Definition bind {A B} (m : M A) (k : A -> M B) : M B :=
  fun st =>
    match m st with
    | (Normal a, st') => k a st'
    | (Raised e, st') => (Raised e, st')
    end.

Definition raise {A} (e : exn) : M A := fun st => (Raised e, st).

Definition gets {A} (f : Monitor.t -> A) : M A := fun st => (Normal (f st), st).

Definition modify (f : Monitor.t -> Monitor.t) : M unit := fun st => (Normal tt, f st).

(** [try: body except Exception as e: handler e] *)
Definition try_catch {A} (body : M A) (handler : exn -> M A) : M A :=
  fun st =>
    match body st with
    | (Normal a, st') => (Normal a, st')
    | (Raised e, st') => handler e st'
    end.

(** Lifting the result of a pure computation that may raise. *)
Definition lift {A} (r : outcome A) : M A := fun st => (r, st).

Notation "x <- m ;; k" := (bind m (fun x => k))
  (at level 100, m at next level, k at level 200, right associativity,
   only parsing).
Notation "m >> k" := (bind m (fun _ => k))
  (at level 100, k at level 200, right associativity, only parsing).

(** [for x in xs: body x] *)
Fixpoint for_each {A} (xs : list A) (body : A -> M unit) : M unit :=
  match xs with
  | [] => ret tt
  | x :: xs' => body x >> for_each xs' body
  end.

Definition exec {A} (m : M A) (st : Monitor.t) : Monitor.t := snd (m st).
Definition result {A} (m : M A) (st : Monitor.t) : outcome A := fst (m st).

(** ** State updates *)

Definition set_metrics_buffer (b : list PerformanceMetric.t) (st : Monitor.t) : Monitor.t :=
  Monitor.mk (Monitor.config st) b (Monitor.alerts st) (Monitor.db_metrics st)
    (Monitor.db_alerts st) (Monitor.outbox st) (Monitor.log st) (Monitor.clock st).

Definition set_alerts (a : list PerformanceAlert.t) (st : Monitor.t) : Monitor.t :=
  Monitor.mk (Monitor.config st) (Monitor.metrics_buffer st) a (Monitor.db_metrics st)
    (Monitor.db_alerts st) (Monitor.outbox st) (Monitor.log st) (Monitor.clock st).

Definition set_db_metrics (d : list PerformanceMetric.t) (st : Monitor.t) : Monitor.t :=
  Monitor.mk (Monitor.config st) (Monitor.metrics_buffer st) (Monitor.alerts st) d
    (Monitor.db_alerts st) (Monitor.outbox st) (Monitor.log st) (Monitor.clock st).

Definition set_db_alerts (d : list PerformanceAlert.t) (st : Monitor.t) : Monitor.t :=
  Monitor.mk (Monitor.config st) (Monitor.metrics_buffer st) (Monitor.alerts st)
    (Monitor.db_metrics st) d (Monitor.outbox st) (Monitor.log st) (Monitor.clock st).

Definition set_outbox (o : list (Channel * PerformanceAlert.t)) (st : Monitor.t) : Monitor.t :=
  Monitor.mk (Monitor.config st) (Monitor.metrics_buffer st) (Monitor.alerts st)
    (Monitor.db_metrics st) (Monitor.db_alerts st) o (Monitor.log st) (Monitor.clock st).

Definition set_log (l : list LogRecord) (st : Monitor.t) : Monitor.t :=
  Monitor.mk (Monitor.config st) (Monitor.metrics_buffer st) (Monitor.alerts st)
    (Monitor.db_metrics st) (Monitor.db_alerts st) (Monitor.outbox st) l (Monitor.clock st).

Definition set_clock (c : Z) (st : Monitor.t) : Monitor.t :=
  Monitor.mk (Monitor.config st) (Monitor.metrics_buffer st) (Monitor.alerts st)
    (Monitor.db_metrics st) (Monitor.db_alerts st) (Monitor.outbox st) (Monitor.log st) c.

(** ** Clock, logger, store, notifications *)

Definition micros_per_second : Z := 1000000.
Definition micros_per_hour : Z := 3600 * micros_per_second.

(** [datetime.now()] *)
Definition datetime_now : M Z := gets Monitor.clock.

(** [int(time.time())]: whole seconds since the epoch. *)
Definition time_time : M Z := gets (fun st => Z.quot (Monitor.clock st) micros_per_second).

(** [time.sleep(seconds)] *)
Definition sleep (seconds : Z) : M unit :=
  modify (fun st => set_clock (Monitor.clock st + seconds * micros_per_second) st).

Definition logging (r : LogRecord) : M unit :=
  modify (fun st => set_log (Monitor.log st ++ [r]) st).

(** [str(n)] for an integer. *)
Definition str (n : Z) : string := NilZero.string_of_int (Z.to_int n).

(** [store_metric]: INSERT INTO metrics. *)
Definition store_metric (metric : PerformanceMetric.t) : M unit :=
  modify (fun st => set_db_metrics (Monitor.db_metrics st ++ [metric]) st).

(** [store_alert]: INSERT OR REPLACE INTO alerts, with alert_id UNIQUE. *)
Definition store_alert (alert : PerformanceAlert.t) : M unit :=
  modify (fun st =>
    set_db_alerts
      (List.filter
         (fun row => negb (String.eqb (PerformanceAlert.alert_id row)
                                      (PerformanceAlert.alert_id alert)))
         (Monitor.db_alerts st) ++ [alert]) st).

Definition post (c : Channel) (alert : PerformanceAlert.t) : M unit :=
  modify (fun st => set_outbox (Monitor.outbox st ++ [(c, alert)]) st).

(** [send_notifications] (lines 457-473). *)
Definition send_notifications (alert : PerformanceAlert.t) : M unit :=
  try_catch
    (cfg <- gets Monitor.config ;;
     (if Config.email_enabled cfg then post Email alert else ret tt) >>
     (if Config.slack_enabled cfg then post Slack alert else ret tt) >>
     (if Config.webhook_enabled cfg then post Webhook alert else ret tt))
    (fun e => logging (LogError "sending notifications" e)).

(** [broadcast_metric] only touches [websocket_clients], which is not part
    of the modelled state. *)
Definition broadcast_metric (metric : PerformanceMetric.t) : M unit := ret tt.

(** ** The metrics buffer (lines 328-349) *)

(** The slice [l[start:]] for an integer [start]. *)
Definition slice_from {A} (start : Z) (l : list A) : list A :=
  let n := Z.of_nat (length l) in
  let s := if (start <? 0)%Z then Z.max (start + n) 0 else Z.min start n in
  drop (Z.to_nat s) l.

Definition add_metric (metric_type : string) (value : Q) (unit source : string)
    (metadata : option Metadata) : M Datatypes.unit :=
  now <- datetime_now ;;
  let metric := PerformanceMetric.mk now metric_type value unit source metadata in
  modify (fun st => set_metrics_buffer (Monitor.metrics_buffer st ++ [metric]) st) >>
  store_metric metric >>
  broadcast_metric metric >>
  buf <- gets Monitor.metrics_buffer ;;
  size <- gets (fun st => Config.buffer_size (Monitor.config st)) ;;
  if (Z.of_nat (length buf) >? size)%Z
  then modify (set_metrics_buffer (slice_from (- size) buf))
  else ret tt.

(** ** The alert engine (lines 375-427) *)

(** Reading [a.source] on a [PerformanceAlert]: the dataclass defines no
    such attribute and no code assigns one, so the lookup raises. *)
Definition alert_source (a : PerformanceAlert.t) : outcome string :=
  Raised AttributeError.

(** [next((a for a in alerts if not a.resolved and a.metric_type ==
    metric_type and a.source == source), None)], with the short-circuit
    evaluation of [and]. *)
Fixpoint existing_alert (alerts : list PerformanceAlert.t) (metric_type source : string)
    : outcome (option PerformanceAlert.t) :=
  match alerts with
  | [] => Normal None
  | a :: rest =>
      if negb (PerformanceAlert.resolved a)
         && String.eqb (PerformanceAlert.metric_type a) metric_type
      then match alert_source a with
           | Normal s =>
               if String.eqb s source then Normal (Some a)
               else existing_alert rest metric_type source
           | Raised e => Raised e
           end
      else existing_alert rest metric_type source
  end.

Definition create_alert (metric_type severity : string) (threshold current_value : Q)
    (message : Message) (source : string) : M unit :=
  seconds <- time_time ;;
  let alert_id := (metric_type ++ "_" ++ source ++ "_" ++ str seconds)%string in
  alerts <- gets Monitor.alerts ;;
  existing <- lift (existing_alert alerts metric_type source) ;;
  match existing with
  | Some _ => ret tt
  | None =>
      now <- datetime_now ;;
      let alert :=
        PerformanceAlert.mk alert_id metric_type severity threshold current_value
          message now false None in
      modify (fun st => set_alerts (Monitor.alerts st ++ [alert]) st) >>
      store_alert alert >>
      send_notifications alert >>
      logging (LogAlert message)
  end.

(** [value >= bound] *)
Definition geq (value bound : Q) : bool := Qle_bool bound value.

Definition check_alerts (metric_type : string) (value : Q) (source : string) : M unit :=
  cfg <- gets Monitor.config ;;
  match Config.alerts cfg !! metric_type with
  | None => ret tt
  | Some thresholds =>
      (* thresholds.get("critical", float('inf')) *)
      match critical thresholds with
      | Some c =>
          if geq value c
          then create_alert metric_type "critical" c value
                 (MsgCritical metric_type value c) source
          else match warning thresholds with
               | Some w =>
                   if geq value w
                   then create_alert metric_type "warning" w value
                          (MsgWarning metric_type value w) source
                   else ret tt
               | None => ret tt
               end
      | None =>
          match warning thresholds with
          | Some w =>
              if geq value w
              then create_alert metric_type "warning" w value
                     (MsgWarning metric_type value w) source
              else ret tt
          | None => ret tt
          end
      end
  end.

(** ** Statistics *)

(** [x > y] *)
Definition gt (x y : Q) : bool := negb (Qle_bool x y).

(** [sum(xs)] *)
Definition sum (xs : list Q) : Q := fold_left Qplus xs 0%Q.

Definition len {A} (xs : list A) : Q := inject_Z (Z.of_nat (length xs)).

(** [statistics.mean] *)
Definition mean (values : list Q) : Q := (sum values / len values)%Q.

(** [statistics.variance]: the sample variance, with divisor n - 1. *)
Definition variance (values : list Q) : Q :=
  let mu := mean values in
  (sum (map (fun x => (x - mu) * (x - mu)) values) / (len values - 1))%Q.

(** The dictionary [metrics_by_type] of [detect_anomalies], in insertion
    order: [d.setdefault(k, []).append(v)]. *)
Fixpoint dict_append (k : string) (v : Q) (d : list (string * list Q))
    : list (string * list Q) :=
  match d with
  | [] => [(k, [v])]
  | (k', vs) :: d' =>
      if String.eqb k' k then (k', vs ++ [v]) :: d'
      else (k', vs) :: dict_append k v d'
  end.

Definition group_by_type (metrics : list PerformanceMetric.t) : list (string * list Q) :=
  fold_left
    (fun d m => dict_append (PerformanceMetric.metric_type m) (PerformanceMetric.value m) d)
    metrics [].

(** [m.timestamp > now - timedelta(hours=h)] *)
Definition newer_than (now hours : Z) (m : PerformanceMetric.t) : bool :=
  (now - hours * micros_per_hour <? PerformanceMetric.timestamp m)%Z.

(** ** Metric history (lines 616-648) *)

Fixpoint insert_by_timestamp (m : PerformanceMetric.t) (rows : list PerformanceMetric.t)
    : list PerformanceMetric.t :=
  match rows with
  | [] => [m]
  | r :: rows' =>
      if (PerformanceMetric.timestamp m <? PerformanceMetric.timestamp r)%Z
      then m :: rows
      else r :: insert_by_timestamp m rows'
  end.

(** ORDER BY timestamp, rows with equal timestamps in insertion order. *)
Definition order_by_timestamp (rows : list PerformanceMetric.t) : list PerformanceMetric.t :=
  fold_left (fun acc m => insert_by_timestamp m acc) rows [].

Definition select_history (metric_type : string) (now hours : Z)
    (rows : list PerformanceMetric.t) : list PerformanceMetric.t :=
  order_by_timestamp
    (List.filter
       (fun m => String.eqb (PerformanceMetric.metric_type m) metric_type
                 && newer_than now hours m)
       rows).

Definition get_metric_history (metric_type : string) (hours : Z)
    : M (list PerformanceMetric.t) :=
  now <- datetime_now ;;
  rows <- gets Monitor.db_metrics ;;
  ret (select_history metric_type now hours rows).

(** ** Trend prediction (lines 567-608) *)

(** [(now - m.timestamp).total_seconds() / 3600] *)
Definition hours_ago (now : Z) (m : PerformanceMetric.t) : Q :=
  (inject_Z (now - PerformanceMetric.timestamp m) / inject_Z micros_per_hour)%Q.

(** [sum(t * v for t, v in zip(times, values))] *)
Definition sum_products (times values : list Q) : Q :=
  sum (map (fun tv => (fst tv * snd tv)%Q) (combine times values)).

Definition slope (times values : list Q) : Q :=
  let n := len times in
  let sum_t := sum times in
  let sum_v := sum values in
  let sum_tv := sum_products times values in
  let sum_t2 := sum (map (fun t => (t * t)%Q) times) in
  let denominator := (n * sum_t2 - sum_t * sum_t)%Q in
  if negb (Qeq_bool denominator 0)
  then ((n * sum_tv - sum_t * sum_v) / denominator)%Q
  else 0%Q.

(** [values[-1] if values else 0] *)
Definition current_value (values : list Q) : Q := List.last values 0%Q.

Definition predicted_value (times values : list Q) : Q :=
  (current_value values + slope times values * 6)%Q.

Definition predict_metric (metric_type : string) : M unit :=
  historical_data <- get_metric_history metric_type 24 ;;
  if (length historical_data <? 20)%nat then ret tt
  else
    now <- datetime_now ;;
    let times := map (hours_ago now) historical_data in
    let values := map PerformanceMetric.value historical_data in
    if (length times =? 0)%nat then ret tt
    else
      let predicted := predicted_value times values in
      cfg <- gets Monitor.config ;;
      match Config.alerts cfg !! metric_type with
      | None => ret tt
      | Some thresholds =>
          (* .get("critical", 90) *)
          let critical_threshold := default 90%Q (critical thresholds) in
          if geq predicted critical_threshold
          then create_alert metric_type "warning" critical_threshold predicted
                 (MsgPredicted metric_type predicted) "prediction"
          else ret tt
      end.

Definition generate_predictive_alerts : M unit :=
  for_each ["cpu_usage"; "memory_usage"; "disk_usage"] predict_metric.

(** ** Endpoint collector (lines 266-326) *)

(** What [requests.get] does for one endpoint: a response with its status
    code after some milliseconds, or an exception. *)
Inductive http_outcome : Type :=
| Responded (status_code : Z) (response_time : Q)
| Failed (e : exn).

Definition check_endpoint (endpoint : Endpoint) (http : http_outcome) : M unit :=
  try_catch
    (match http with
     | Failed e => raise e
     | Responded code response_time =>
         add_metric "response_time" response_time "ms" (name endpoint)
           (Some {| url := endpoint_url endpoint; status_code := code |}) >>
         add_metric "availability" (if (code <? 400)%Z then 100%Q else 0%Q) "percent"
           (name endpoint) None >>
         (if (code >=? 400)%Z
          then create_alert "availability" "critical" 100%Q 0%Q
                 (MsgEndpointStatus (name endpoint) code) "system"
          else ret tt) >>
         check_alerts "response_time" response_time (name endpoint)
     end)
    (fun e =>
       match e with
       | Timeout =>
           create_alert "availability" "critical" 100%Q 0%Q
             (MsgEndpointTimeout (name endpoint) (default 10%Q (timeout endpoint)))
             "system"
       | _ => logging (LogError ("checking endpoint " ++ name endpoint) e)
       end).

(** One iteration of the [while self.monitoring] loop of
    [monitor_web_endpoints]; [http] is what each endpoint answers. *)
Definition monitor_web_endpoints (http : Endpoint -> http_outcome) : M unit :=
  try_catch
    (eps <- gets (fun st => Config.endpoints (Monitor.config st)) ;;
     for_each eps (fun endpoint => check_endpoint endpoint (http endpoint)) >>
     interval <- gets (fun st => Config.interval_seconds (Monitor.config st)) ;;
     sleep interval)
    (fun e => logging (LogError "endpoint monitoring" e) >> sleep 5).

(** One iteration of the loop of [monitor_system_metrics] (lines 231-264),
    given the readings psutil returns. *)
Definition monitor_system_metrics (cpu_percent memory_percent disk_percent
    bytes_sent bytes_recv : Q) : M unit :=
  try_catch
    (add_metric "cpu_usage" cpu_percent "percent" "system" None >>
     add_metric "memory_usage" memory_percent "percent" "system" None >>
     add_metric "disk_usage" disk_percent "percent" "system" None >>
     add_metric "network_bytes_sent" bytes_sent "bytes" "system" None >>
     add_metric "network_bytes_recv" bytes_recv "bytes" "system" None >>
     check_alerts "cpu_usage" cpu_percent "system" >>
     check_alerts "memory_usage" memory_percent "system" >>
     check_alerts "disk_usage" disk_percent "system" >>
     interval <- gets (fun st => Config.interval_seconds (Monitor.config st)) ;;
     sleep interval)
    (fun e => logging (LogError "system metrics monitoring" e) >> sleep 5).

(** ** Anomaly detection (lines 532-565) and the analytics loop *)

Section Analytics.

(** The square root behind [statistics.stdev]; it is irrational in general,
    so the development is parametric in it. *)
Variable sqrt : Q -> Q.

(** [statistics.stdev] *)
Definition stdev (values : list Q) : Q := sqrt (variance values).

(** [abs((value - mean) / stdev) if stdev > 0 else 0] *)
Definition z_score (value mean stdev : Q) : Q :=
  if gt stdev 0 then Qabs ((value - mean) / stdev) else 0%Q.

Definition check_anomaly (metric_type : string) (mean stdev : Q)
    (metric : PerformanceMetric.t) : M unit :=
  if String.eqb (PerformanceMetric.metric_type metric) metric_type
  then
    let z := z_score (PerformanceMetric.value metric) mean stdev in
    if gt z 3
    then create_alert (PerformanceMetric.metric_type metric) "warning"
           (mean + 3 * stdev)%Q (PerformanceMetric.value metric)
           (MsgAnomaly metric_type (PerformanceMetric.value metric) z)
           (PerformanceMetric.source metric)
    else ret tt
  else ret tt.

Definition detect_type (recent_metrics : list PerformanceMetric.t)
    (item : string * list Q) : M unit :=
  let (metric_type, values) := item in
  if (length values <? 10)%nat then ret tt
  else
    let mean := mean values in
    let stdev := if (1 <? length values)%nat then stdev values else 0%Q in
    for_each recent_metrics (check_anomaly metric_type mean stdev).

Definition detect_anomalies : M unit :=
  now <- datetime_now ;;
  buf <- gets Monitor.metrics_buffer ;;
  let recent_metrics := List.filter (newer_than now 1) buf in
  let metrics_by_type := group_by_type recent_metrics in
  for_each metrics_by_type (detect_type recent_metrics).

(** One iteration of [ai_analytics_loop] (lines 513-530); [analyze_trends]
    only writes a debug line to the logger. *)
Definition ai_analytics_loop : M unit :=
  try_catch
    (cfg <- gets Monitor.config ;;
     (if Config.anomaly_detection cfg then detect_anomalies else ret tt) >>
     (if Config.predictive_alerts cfg then generate_predictive_alerts else ret tt) >>
     sleep 300)
    (fun e => logging (LogError "AI analytics" e) >> sleep 60).

(** ** Runs of the monitor *)

Inductive event : Type :=
| Elapse (micros : Z)
| SystemTick (cpu_percent memory_percent disk_percent bytes_sent bytes_recv : Q)
| EndpointsTick (http : Endpoint -> http_outcome)
| AnalyticsTick
| Sample (metric_type : string) (value : Q) (unit source : string)
| Call_create_alert (metric_type severity : string) (threshold current_value : Q)
    (message : Message) (source : string).

Definition step (ev : event) : M Datatypes.unit :=
  match ev with
  | Elapse micros => modify (fun st => set_clock (Monitor.clock st + Z.max micros 0) st)
  | SystemTick cpu mem disk sent recv => monitor_system_metrics cpu mem disk sent recv
  | EndpointsTick http => monitor_web_endpoints http
  | AnalyticsTick => ai_analytics_loop
  | Sample metric_type value unit source =>
      add_metric metric_type value unit source None >>
      check_alerts metric_type value source
  | Call_create_alert metric_type severity threshold current_value message source =>
      create_alert metric_type severity threshold current_value message source
  end.

(** An exception that escapes a step ends that step only. *)
Definition run (evs : list event) (st : Monitor.t) : Monitor.t :=
  fold_left (fun s ev => exec (step ev) s) evs st.

End Analytics.

(** The monitor as [__init__] leaves it when [init_database] has just
    created the tables (lines 89-101, 171-206). *)
Definition init (cfg : Config.t) (now : Z) : Monitor.t :=
  Monitor.mk cfg [] [] [] [] [] [] now.

(** The built-in configuration of [load_config] (lines 105-153). *)
Definition default_alerts : gmap string Thresholds :=
  <["cpu_usage" := {| warning := Some 70%Q; critical := Some 90%Q |}]>
  (<["memory_usage" := {| warning := Some 75%Q; critical := Some 90%Q |}]>
  (<["response_time" := {| warning := Some 2000%Q; critical := Some 5000%Q |}]>
  (<["error_rate" := {| warning := Some 1%Q; critical := Some 5%Q |}]>
  (<["disk_usage" := {| warning := Some 80%Q; critical := Some 95%Q |}]> ∅)))).

Definition default_config : Config.t :=
  Config.mk 30 1000 default_alerts
    [ {| name := "api"; endpoint_url := "https://api.example.com/health"; timeout := Some 10%Q |};
      {| name := "website"; endpoint_url := "https://example.com"; timeout := Some 5%Q |} ]
    false false false true true.

(** ** Configuration loading (lines 103-169) *)

(** What [json.load] returns. *)
#[warnings="-register-all"] Inductive json : Type :=
| JNull
| JBool (b : bool)
| JNum (q : Q)
| JStr (s : string)
| JList (l : list json)
| JDict (d : list (string * json)).

(** [d.get(key)]: a dict is the list of its items in insertion order. *)
Definition dict_lookup (key : string) (d : list (string * json)) : option json :=
  option_map snd (List.find (fun item => String.eqb (fst item) key) d).

(** [d[key] = value]: an existing key keeps its place, a new one goes last. *)
Fixpoint dict_set (key : string) (value : json) (d : list (string * json))
    : list (string * json) :=
  match d with
  | [] => [(key, value)]
  | (k, v) :: d' =>
      if String.eqb k key then (k, value) :: d' else (k, v) :: dict_set key value d'
  end.

(** What one round of the loop of [_deep_merge] leaves under [key], given
    what the base holds there: two dicts are merged, anything else is
    replaced by the value of the update. *)
Fixpoint merge_value (value : json) (old : option json) {struct value} : json :=
  match value, old with
  | JDict update, Some (JDict base) =>
      JDict
        ((fix merge_items (update base : list (string * json)) {struct update} :=
            match update with
            | [] => base
            | (key, v) :: rest =>
                merge_items rest (dict_set key (merge_value v (dict_lookup key base)) base)
            end) update base)
  | _, _ => value
  end.

(** [_deep_merge(base, update)]: the base after the loop over
    [update.items()]. *)
Definition _deep_merge (base update : list (string * json)) : list (string * json) :=
  fold_left
    (fun base item => dict_set (fst item) (merge_value (snd item) (dict_lookup (fst item) base)) base)
    update base.

(** A value in which every dict, at any depth below dicts, has pairwise
    distinct keys, as every Python dict has. *)
Fixpoint distinct_keys (j : json) : Prop :=
  match j with
  | JDict d =>
      NoDup (map fst d)
      /\ (fix all (d : list (string * json)) : Prop :=
            match d with
            | [] => True
            | (_, v) :: d' => distinct_keys v /\ all d'
            end) d
  | _ => True
  end.

(** ** Recommendations (lines 755-780) *)

(** [[m.value for m in self.metrics_buffer if m.metric_type == metric_type]] *)
Definition buffered_values (metric_type : string) (st : Monitor.t) : list Q :=
  map PerformanceMetric.value
    (List.filter (fun m => String.eqb (PerformanceMetric.metric_type m) metric_type)
       (Monitor.metrics_buffer st)).

(** One of the three blocks of [generate_recommendations]: the line is
    appended when the metric type has buffered samples whose mean exceeds
    the bound. *)
Definition recommend (metric_type : string) (bound : Q) (line : string) (st : Monitor.t)
    : list string :=
  match buffered_values metric_type st with
  | [] => []
  | values => if gt (mean values) bound then [line] else []
  end.

Definition newline : string := String (ascii_of_nat 10) EmptyString.

Definition optimal_ranges : string := "- Performance metrics are within optimal ranges".

Definition generate_recommendations (st : Monitor.t) : string :=
  let recommendations :=
    recommend "cpu_usage" 70
      "- Consider scaling up resources or optimizing CPU-intensive processes" st
    ++ recommend "memory_usage" 75
         "- Monitor memory leaks and consider increasing RAM or optimizing memory usage" st
    ++ recommend "response_time" 1000
         "- Optimize API endpoints and implement caching to reduce response times" st in
  match recommendations with
  | [] => optimal_ranges
  | _ => String.concat newline recommendations
  end.

(** ** Vocabulary of the statements *)

(** *** Alerts and keys *)

(** The alert is unresolved and of the given metric type. *)
Definition is_open (metric_type : string) (a : PerformanceAlert.t) : bool :=
  negb (PerformanceAlert.resolved a)
  && String.eqb (PerformanceAlert.metric_type a) metric_type.

(** An unresolved alert of the given metric type is in the list. *)
Definition has_open (alerts : list PerformanceAlert.t) (metric_type : string) : bool :=
  existsb (is_open metric_type) alerts.

(** The identifier [create_alert] gives to an alert of the key
    (metric_type, source) starts with this text; the record keeps no other
    trace of the source. *)
Definition key_prefix (metric_type source : string) : string :=
  (metric_type ++ "_" ++ source ++ "_")%string.

(** An unresolved alert of the dedup key (metric_type, source). *)
Definition is_open_for (metric_type source : string) (a : PerformanceAlert.t) : bool :=
  is_open metric_type a
  && String.prefix (key_prefix metric_type source) (PerformanceAlert.alert_id a).

Definition open_count (metric_type source : string) (alerts : list PerformanceAlert.t) : nat :=
  length (List.filter (is_open_for metric_type source) alerts).

(** At most one unresolved alert of each metric type. *)
Definition unique_open (alerts : list PerformanceAlert.t) : Prop :=
  forall metric_type, (length (List.filter (is_open metric_type) alerts) <= 1)%nat.

(** The list only grew, by appending to [old]. *)
Definition extends (old : list PerformanceAlert.t) (alerts : list PerformanceAlert.t) : Prop :=
  exists new, alerts = old ++ new.

(** The alert that [create_alert] builds in state [st]. *)
Definition new_alert (metric_type severity : string) (threshold current_value : Q)
    (message : Message) (source : string) (st : Monitor.t) : PerformanceAlert.t :=
  PerformanceAlert.mk
    (metric_type ++ "_" ++ source ++ "_"
       ++ str (Z.quot (Monitor.clock st) micros_per_second))%string
    metric_type severity threshold current_value message (Monitor.clock st) false None.

(** The state after an alert was appended, stored, notified and logged. *)
Definition record_alert (alert : PerformanceAlert.t) (st : Monitor.t) : Monitor.t :=
  exec (modify (fun st => set_alerts (Monitor.alerts st ++ [alert]) st) >>
        store_alert alert >>
        send_notifications alert >>
        logging (LogAlert (PerformanceAlert.message alert))) st.

(** The alert request of the timeout handler of [check_endpoint]. *)
Definition timeout_alert (endpoint : Endpoint) : M Datatypes.unit :=
  create_alert "availability" "critical" 100%Q 0%Q
    (MsgEndpointTimeout (name endpoint) (default 10%Q (timeout endpoint))) "system".

(** *** Effects of a computation *)

(** A computation keeps a property of the state, whether it returns or
    raises. *)
Definition preserves {A} (I : Monitor.t -> Prop) (m : M A) : Prop :=
  forall st, I st -> I (exec m st).

(** From [st0] to [st] the configuration, the buffer, the metrics table
    and the clock did not change, and the alert list grew by alerts that
    all satisfy [Good]. *)
Definition grown_by (Good : PerformanceAlert.t -> Prop) (st0 st : Monitor.t) : Prop :=
  Monitor.config st = Monitor.config st0
  /\ Monitor.metrics_buffer st = Monitor.metrics_buffer st0
  /\ Monitor.db_metrics st = Monitor.db_metrics st0
  /\ Monitor.clock st = Monitor.clock st0
  /\ exists new, Monitor.alerts st = Monitor.alerts st0 ++ new /\ Forall Good new.

(** *** The buffer *)

(** The arguments of one [add_metric] call. *)
Record sample : Type := {
  sample_type : string;
  sample_value : Q;
  sample_unit : string;
  sample_source : string;
  sample_metadata : option Metadata
}.

Definition insert (s : sample) : M Datatypes.unit :=
  add_metric (sample_type s) (sample_value s) (sample_unit s) (sample_source s)
    (sample_metadata s).

(** The metric object that [add_metric] builds at clock reading [now]. *)
Definition metric_of (now : Z) (s : sample) : PerformanceMetric.t :=
  PerformanceMetric.mk now (sample_type s) (sample_value s) (sample_unit s)
    (sample_source s) (sample_metadata s).

(** The [c] last elements of a list, in order. *)
Definition most_recent {A} (c : nat) (l : list A) : list A := drop (length l - c) l.

(** *** The trend predictor *)

(** The rows [generate_predictive_alerts] reads for a metric type. *)
Definition history (st : Monitor.t) (metric_type : string) : list PerformanceMetric.t :=
  select_history metric_type (Monitor.clock st) 24 (Monitor.db_metrics st).

(** The projection [generate_predictive_alerts] computes for a metric type. *)
Definition prediction (st : Monitor.t) (metric_type : string) : Q :=
  predicted_value (map (hours_ago (Monitor.clock st)) (history st metric_type))
    (map PerformanceMetric.value (history st metric_type)).

(** What holds of an alert appended by the trend predictor run in [st0]. *)
Definition predicted_in (st0 : Monitor.t) (a : PerformanceAlert.t) : Prop :=
  PerformanceAlert.severity a = "warning"
  /\ (20 <= length (history st0 (PerformanceAlert.metric_type a)))%nat
  /\ String.prefix (key_prefix (PerformanceAlert.metric_type a) "prediction")
       (PerformanceAlert.alert_id a) = true.

(** The left side of the test [(n * sum_t2 - sum_t * sum_t) != 0]. *)
Definition denominator (times : list Q) : Q :=
  (len times * sum (map (fun t => (t * t)%Q) times) - sum times * sum times)%Q.

(** The intercept that goes with [slope]: the line through the centroid. *)
Definition intercept (times values : list Q) : Q :=
  ((sum values - slope times values * sum times) / len times)%Q.

(** Sum of squared errors of the line [v = a + b * t] on points (t, v). *)
Definition sse (a b : Q) (points : list (Q * Q)) : Q :=
  sum (map (fun p => ((snd p - (a + b * fst p)) * (snd p - (a + b * fst p)))%Q) points).

(** Following the spec's words (section 4.5): the least-squares line
    [value = a + b * t] over the samples of the last 24 hours, [t] the time
    elapsed in hours since the window opened, evaluated 6 hours after the
    present moment: [a + b * (t_now + 6)]. *)
Definition elapsed_hours (now : Z) (timestamp : Z) : Q :=
  (inject_Z (timestamp - (now - 24 * micros_per_hour)) / inject_Z micros_per_hour)%Q.

Definition spec_projection (now : Z) (samples : list PerformanceMetric.t) : Q :=
  let times := map (fun m => elapsed_hours now (PerformanceMetric.timestamp m)) samples in
  let values := map PerformanceMetric.value samples in
  (intercept times values + slope times values * (elapsed_hours now now + 6))%Q.

(** *** The anomaly detector *)

(** The samples of the last hour, as [detect_anomalies] selects them. *)
Definition recent (st : Monitor.t) : list PerformanceMetric.t :=
  List.filter (newer_than (Monitor.clock st) 1) (Monitor.metrics_buffer st).

(** The values of one metric type among some samples, in order. *)
Definition values_of (metric_type : string) (metrics : list PerformanceMetric.t) : list Q :=
  map PerformanceMetric.value
    (List.filter (fun m => String.eqb (PerformanceMetric.metric_type m) metric_type) metrics).

(** [d.get(k)] on the dictionary of [detect_anomalies]. *)
Definition dict_get (k : string) (d : list (string * list Q)) : option (list Q) :=
  option_map snd (List.find (fun item => String.eqb (fst item) k) d).

(** A dictionary entry after more values were appended under its key. *)
Definition merged (o : option (list Q)) (vs : list Q) : option (list Q) :=
  match o, vs with
  | None, [] => None
  | _, _ => Some (default [] o ++ vs)
  end.

(** Following the spec's words (section 4.4): no anomaly with fewer than 10
    samples; otherwise [z = |value - mu| / sigma], no anomaly if
    [sigma = 0]; fires when [z > 3]. *)
Definition spec_fires (sqrt : Q -> Q) (values : list Q) (value : Q) : bool :=
  (10 <=? length values)%nat
  && negb (Qeq_bool (stdev sqrt values) 0)
  && gt (Qabs (value - mean values) / stdev sqrt values) 3.

(** The alert request [detect_anomalies] makes for a sample of the window. *)
Definition anomaly_alert (sqrt : Q -> Q) (window : list PerformanceMetric.t)
    (m : PerformanceMetric.t) : M Datatypes.unit :=
  let values := values_of (PerformanceMetric.metric_type m) window in
  let mu := mean values in
  let sigma := stdev sqrt values in
  create_alert (PerformanceMetric.metric_type m) "warning" (mu + 3 * sigma)%Q
    (PerformanceMetric.value m)
    (MsgAnomaly (PerformanceMetric.metric_type m) (PerformanceMetric.value m)
       (z_score (PerformanceMetric.value m) mu sigma))
    (PerformanceMetric.source m).

(** The samples of the window for which the spec's test fires, metric type
    after metric type in the order of first appearance. *)
Definition anomalous_samples (sqrt : Q -> Q) (window : list PerformanceMetric.t)
    : list PerformanceMetric.t :=
  flat_map
    (fun item : string * list Q =>
       List.filter
         (fun m => String.eqb (PerformanceMetric.metric_type m) (fst item)
                   && spec_fires sqrt (values_of (fst item) window)
                        (PerformanceMetric.value m))
         window)
    (group_by_type window).

(** The alert that [detect_anomalies], run in state [st], builds for a
    sample of its window. *)
Definition anomaly_record (sqrt : Q -> Q) (st : Monitor.t) (m : PerformanceMetric.t)
    : PerformanceAlert.t :=
  let values := values_of (PerformanceMetric.metric_type m) (recent st) in
  let mu := mean values in
  let sigma := stdev sqrt values in
  new_alert (PerformanceMetric.metric_type m) "warning" (mu + 3 * sigma)%Q
    (PerformanceMetric.value m)
    (MsgAnomaly (PerformanceMetric.metric_type m) (PerformanceMetric.value m)
       (z_score (PerformanceMetric.value m) mu sigma))
    (PerformanceMetric.source m) st.

(** ** States and inputs of the examples *)

Definition epoch : Z := 1700000000000000.

(** One warning alert for (cpu_usage, system) is open: a sample of 75
    against the built-in bounds 70 and 90. *)
Definition st_warning_open : Monitor.t :=
  exec (check_alerts "cpu_usage" 75%Q "system") (init default_config epoch).

Definition cpu (v : Q) : sample :=
  {| sample_type := "cpu_usage"; sample_value := v; sample_unit := "percent";
     sample_source := "system"; sample_metadata := None |}.

(** The built-in configuration with another buffer size. *)
Definition config_with_buffer_size (c : Z) : Config.t :=
  Config.mk 30 c default_alerts (Config.endpoints default_config)
    false false false true true.

Definition api : Endpoint :=
  {| name := "api"; endpoint_url := "https://api.example.com/health"; timeout := Some 10%Q |}.

(** Twenty cpu_usage samples, one every 30 minutes, falling from 100 to 81;
    the clock then stands 30 minutes after the last one. *)
Definition falling : list Q :=
  map (fun k => inject_Z (100 - Z.of_nat k)) (seq 0 20).

Definition st_falling : Monitor.t :=
  exec (for_each falling (fun v => insert (cpu v) >> sleep 1800))
    (init default_config epoch).

(** A rational stand-in for the square root, exact on squares of
    rationals; used in the examples. *)
Definition Qsqrt (q : Q) : Q := Z.sqrt (Qnum q * Zpos (Qden q)) # Qden q.

(** Fifteen cpu_usage samples of 0 and then one of 16, 30 seconds apart:
    mean 1, standard deviation 4, z-score of the last sample 15/4. *)
Definition st_outlier : Monitor.t :=
  exec (for_each (repeat 0%Q 15 ++ [16%Q]) (fun v => insert (cpu v) >> sleep 30))
    (init default_config epoch).



(** Twenty cpu_usage samples, one every 30 minutes, rising from 31 to 69,
    each checked against the thresholds as [monitor_system_metrics] does;
    the clock then stands 30 minutes after the last one. *)
Definition rising : list Q :=
  map (fun k => inject_Z (31 + 2 * Z.of_nat k)) (seq 0 20).

Definition st_rising : Monitor.t :=
  exec (for_each rising
          (fun v => insert (cpu v) >> check_alerts "cpu_usage" v "system" >> sleep 1800))
    (init default_config epoch).

(** ** Vocabulary of the run invariants *)

(** The alert is unresolved and carries no resolution time. *)
Definition unresolved (a : PerformanceAlert.t) : Prop :=
  PerformanceAlert.resolved a = false /\ PerformanceAlert.resolved_at a = None.

(** The alerts sent on one notification channel, in order. *)
Definition sent_on (c : Channel) (outbox : list (Channel * PerformanceAlert.t))
    : list PerformanceAlert.t :=
  map snd
    (List.filter
       (fun p => match fst p, c with
                 | Email, Email | Slack, Slack | Webhook, Webhook => true
                 | _, _ => false
                 end)
       outbox).

(** The [enabled] flag of a channel in [config["notifications"]]. *)
Definition enabled (cfg : Config.t) (c : Channel) : bool :=
  match c with
  | Email => Config.email_enabled cfg
  | Slack => Config.slack_enabled cfg
  | Webhook => Config.webhook_enabled cfg
  end.

(** The rows of the alerts table have pairwise distinct identifiers, and
    each of them is a row of [rows0] or carries the identifier of an alert
    of [new]. *)
Definition table_consistent (rows0 new rows : list PerformanceAlert.t) : Prop :=
  NoDup (map PerformanceAlert.alert_id rows)
  /\ Forall (fun row => In row rows0
                        \/ In (PerformanceAlert.alert_id row)
                             (map PerformanceAlert.alert_id new))
       rows.

(** Nothing was sent on a disabled channel, and whatever was sent is an
    alert of the list. *)
Definition outbox_consistent (cfg : Config.t) (st : Monitor.t) : Prop :=
  Monitor.config st = cfg
  /\ (forall c, enabled cfg c = false -> sent_on c (Monitor.outbox st) = [])
  /\ (forall c a, In (c, a) (Monitor.outbox st) -> In a (Monitor.alerts st)).

(** The built-in configuration with e-mail notifications switched on. *)
Definition config_email_only : Config.t :=
  Config.mk 30 1000 default_alerts (Config.endpoints default_config)
    true false false true true.

(** A computation raises nothing but AttributeError. *)
Definition raises_only_AttributeError {A} (m : M A) : Prop :=
  forall st e, result m st = Raised e -> e = AttributeError.

(** The two samples [check_endpoint] records for a response. *)
Definition response_time_sample (now : Z) (endpoint : Endpoint) (code : Z)
    (response_time : Q) : PerformanceMetric.t :=
  PerformanceMetric.mk now "response_time" response_time "ms" (name endpoint)
    (Some {| url := endpoint_url endpoint; status_code := code |}).

Definition availability_sample (now : Z) (endpoint : Endpoint) (code : Z)
    : PerformanceMetric.t :=
  PerformanceMetric.mk now "availability" (if (code <? 400)%Z then 100%Q else 0%Q)
    "percent" (name endpoint) None.

(** What [check_alerts] may append for a value under given thresholds: an
    unresolved alert for that value whose bound the value reaches, critical
    when the critical bound is reached and warning only below it. *)
Definition threshold_alert (metric_type : string) (value : Q) (thresholds : Thresholds)
    (a : PerformanceAlert.t) : Prop :=
  PerformanceAlert.metric_type a = metric_type
  /\ PerformanceAlert.current_value a = value
  /\ PerformanceAlert.resolved a = false
  /\ (PerformanceAlert.threshold a <= value)%Q
  /\ ((PerformanceAlert.severity a = "critical"
       /\ critical thresholds = Some (PerformanceAlert.threshold a))
      \/ (PerformanceAlert.severity a = "warning"
          /\ warning thresholds = Some (PerformanceAlert.threshold a)
          /\ match critical thresholds with
             | Some c => (value < c)%Q
             | None => True
             end)).

(** What holds of an alert appended by the trend predictor run in [st0]:
    it is for one of the three predicted metric types, which has
    thresholds; it records the critical bound (90 when the thresholds have
    none) and the projection, which reaches that bound. *)
Definition prediction_alert (st0 : Monitor.t) (a : PerformanceAlert.t) : Prop :=
  In (PerformanceAlert.metric_type a) ["cpu_usage"; "memory_usage"; "disk_usage"]
  /\ PerformanceAlert.resolved a = false
  /\ PerformanceAlert.current_value a = prediction st0 (PerformanceAlert.metric_type a)
  /\ (PerformanceAlert.threshold a <= PerformanceAlert.current_value a)%Q
  /\ exists thresholds,
       Config.alerts (Monitor.config st0) !! PerformanceAlert.metric_type a
       = Some thresholds
       /\ PerformanceAlert.threshold a = default 90%Q (critical thresholds).

(** A timestamp in hours since the epoch. *)
Definition hours (timestamp : Z) : Q := (inject_Z timestamp / inject_Z micros_per_hour)%Q.

(** No buffered sample of the metric type is above the bound. *)
Definition within (metric_type : string) (bound : Q) (st : Monitor.t) : Prop :=
  Forall (fun m => PerformanceMetric.metric_type m = metric_type ->
                   (PerformanceMetric.value m <= bound)%Q)
    (Monitor.metrics_buffer st).

(** A state whose buffer holds one CPU reading of 50 and one disk reading
    of 99. *)
Definition st_calm : Monitor.t :=
  exec (add_metric "cpu_usage" 50 "percent" "system" None
        >> add_metric "disk_usage" 99 "percent" "system" None)
    (init default_config epoch).

(** ** The monad *)

Lemma preserves_ret {A} I (a : A) : preserves I (ret a).
Proof. intros st H. exact H. Qed.

Lemma preserves_gets {A} I (f : Monitor.t -> A) : preserves I (gets f).
Proof. intros st H. exact H. Qed.

Lemma preserves_lift {A} I (r : outcome A) : preserves I (lift r).
Proof. intros st H. exact H. Qed.

Lemma preserves_raise {A} I e : preserves I (@raise A e).
Proof. intros st H. exact H. Qed.

Lemma preserves_bind {A B} I (m : M A) (k : A -> M B) :
  preserves I m -> (forall a, preserves I (k a)) -> preserves I (bind m k).
Proof.
  intros Hm Hk st H. unfold exec, bind.
  specialize (Hm st H). unfold exec in Hm.
  destruct (m st) as [[a|e] st']; simpl in *.
  - apply (Hk a st' Hm).
  - exact Hm.
Qed.

Lemma preserves_try_catch {A} I (body : M A) handler :
  preserves I body -> (forall e, preserves I (handler e)) ->
  preserves I (try_catch body handler).
Proof.
  intros Hb Hh st H. unfold exec, try_catch.
  specialize (Hb st H). unfold exec in Hb.
  destruct (body st) as [[a|e] st']; simpl in *.
  - exact Hb.
  - apply (Hh e st' Hb).
Qed.

Lemma preserves_for_each {A} I (xs : list A) body :
  (forall x, In x xs -> preserves I (body x)) -> preserves I (for_each xs body).
Proof.
  induction xs as [|x xs IH]; intros Hb; simpl.
  - apply preserves_ret.
  - apply preserves_bind.
    + apply Hb. now left.
    + intros _. apply IH. intros y Hy. apply Hb. now right.
Qed.

Lemma preserves_modify I f :
  (forall st, I st -> I (f st)) -> preserves I (modify f).
Proof. intros Hf st H. apply Hf, H. Qed.

(** Unfolding the monad and the primitive effects. *)
Ltac run_M :=
  cbv beta iota zeta delta
    [exec result bind ret gets modify lift raise try_catch datetime_now time_time
     logging store_alert store_metric post send_notifications broadcast_metric sleep
     set_metrics_buffer set_alerts set_db_metrics set_db_alerts set_outbox set_log
     set_clock fst snd];
  cbn [Monitor.config Monitor.metrics_buffer Monitor.alerts Monitor.db_metrics
       Monitor.db_alerts Monitor.outbox Monitor.log Monitor.clock].

(** ** [create_alert] *)

Lemma existing_alert_spec alerts metric_type source :
  existing_alert alerts metric_type source =
  if has_open alerts metric_type then Raised AttributeError else Normal None.
Proof.
  induction alerts as [|a rest IH]; simpl; [reflexivity|].
  unfold is_open at 1.
  destruct (negb (PerformanceAlert.resolved a)
            && String.eqb (PerformanceAlert.metric_type a) metric_type); simpl.
  - reflexivity.
  - exact IH.
Qed.

Lemma has_open_true alerts metric_type :
  has_open alerts metric_type = true <->
  exists a, In a alerts /\ PerformanceAlert.resolved a = false
            /\ PerformanceAlert.metric_type a = metric_type.
Proof.
  unfold has_open. rewrite existsb_exists. split.
  - intros (a & Hin & Ha). exists a. unfold is_open in Ha.
    apply andb_prop in Ha as [Hr Ht]. apply negb_true_iff in Hr.
    apply String.eqb_eq in Ht. auto.
  - intros (a & Hin & Hr & Ht). exists a. split; [exact Hin|].
    unfold is_open. rewrite Hr. simpl. now apply String.eqb_eq.
Qed.

Lemma create_alert_blocked metric_type severity threshold current_value message source st :
  has_open (Monitor.alerts st) metric_type = true ->
  create_alert metric_type severity threshold current_value message source st
  = (Raised AttributeError, st).
Proof.
  intros H. unfold create_alert, bind, time_time, gets, lift.
  rewrite existing_alert_spec, H. reflexivity.
Qed.

Lemma create_alert_fresh metric_type severity threshold current_value message source st :
  has_open (Monitor.alerts st) metric_type = false ->
  create_alert metric_type severity threshold current_value message source st
  = (Normal tt,
     record_alert
       (new_alert metric_type severity threshold current_value message source st) st).
Proof.
  intros H. unfold create_alert, bind, time_time, gets, lift.
  rewrite existing_alert_spec, H.
  unfold record_alert, new_alert. run_M.
  destruct (Config.email_enabled (Monitor.config st)),
           (Config.slack_enabled (Monitor.config st)),
           (Config.webhook_enabled (Monitor.config st)); reflexivity.
Qed.

Lemma record_alert_alerts alert st :
  Monitor.alerts (record_alert alert st) = Monitor.alerts st ++ [alert].
Proof.
  unfold record_alert. run_M.
  destruct (Config.email_enabled (Monitor.config st)),
           (Config.slack_enabled (Monitor.config st)),
           (Config.webhook_enabled (Monitor.config st)); reflexivity.
Qed.

(** What recording an alert leaves alone: the configuration, the buffer,
    the metrics table and the clock. *)
Lemma record_alert_frame alert st :
  Monitor.config (record_alert alert st) = Monitor.config st
  /\ Monitor.metrics_buffer (record_alert alert st) = Monitor.metrics_buffer st
  /\ Monitor.db_metrics (record_alert alert st) = Monitor.db_metrics st
  /\ Monitor.clock (record_alert alert st) = Monitor.clock st.
Proof.
  unfold record_alert. run_M.
  destruct (Config.email_enabled (Monitor.config st)),
           (Config.slack_enabled (Monitor.config st)),
           (Config.webhook_enabled (Monitor.config st)); simpl; auto.
Qed.

(** The two ways a call of [create_alert] can end. *)
Lemma create_alert_cases metric_type severity threshold current_value message source st :
  (has_open (Monitor.alerts st) metric_type = true
   /\ create_alert metric_type severity threshold current_value message source st
      = (Raised AttributeError, st))
  \/ (has_open (Monitor.alerts st) metric_type = false
      /\ create_alert metric_type severity threshold current_value message source st
         = (Normal tt,
            record_alert
              (new_alert metric_type severity threshold current_value message source st)
              st)).
Proof.
  destruct (has_open (Monitor.alerts st) metric_type) eqn:H.
  - left. split; [reflexivity|]. now apply create_alert_blocked.
  - right. split; [reflexivity|]. now apply create_alert_fresh.
Qed.

(** ** Properties of the alert list that every step keeps *)

Ltac preserves_step :=
  match goal with
  | |- preserves _ (bind _ _) => apply preserves_bind; [|intros ?]
  | |- preserves _ (try_catch _ _) => apply preserves_try_catch; [|intros ?]
  | |- preserves _ (for_each _ _) => apply preserves_for_each; intros ? ?
  | |- preserves _ (ret _) => apply preserves_ret
  | |- preserves _ (gets _) => apply preserves_gets
  | |- preserves _ (raise _) => apply preserves_raise
  | |- preserves _ (lift _) => apply preserves_lift
  | |- preserves _ (if ?b then _ else _) => destruct b
  | |- preserves _ (match ?x with _ => _ end) => destruct x
  | |- preserves _ (let (_, _) := ?x in _) => destruct x
  end.

Section AlertInvariant.

(** [I] speaks of the alert list only, and [create_alert] keeps it. *)
Variable I : list PerformanceAlert.t -> Prop.

Hypothesis I_create_alert :
  forall metric_type severity threshold current_value message source,
    preserves (fun st => I (Monitor.alerts st))
      (create_alert metric_type severity threshold current_value message source).

Variable sqrt : Q -> Q.

Let J (st : Monitor.t) : Prop := I (Monitor.alerts st).

Lemma J_modify f :
  (forall st, Monitor.alerts (f st) = Monitor.alerts st) -> preserves J (modify f).
Proof. intros Hf. apply preserves_modify. intros st H. unfold J. now rewrite Hf. Qed.

Lemma J_sleep n : preserves J (sleep n).
Proof. apply J_modify. reflexivity. Qed.

Lemma J_logging r : preserves J (logging r).
Proof. apply J_modify. reflexivity. Qed.

Lemma J_add_metric metric_type value unit source metadata :
  preserves J (add_metric metric_type value unit source metadata).
Proof.
  unfold add_metric, datetime_now, store_metric, broadcast_metric.
  repeat preserves_step; apply J_modify; reflexivity.
Qed.

Lemma J_check_alerts metric_type value source :
  preserves J (check_alerts metric_type value source).
Proof.
  unfold check_alerts. repeat preserves_step; apply I_create_alert.
Qed.

Lemma J_check_endpoint endpoint http : preserves J (check_endpoint endpoint http).
Proof.
  unfold check_endpoint.
  repeat preserves_step;
    first [apply J_add_metric | apply J_check_alerts | apply I_create_alert
          | apply J_logging].
Qed.

Lemma J_monitor_web_endpoints http : preserves J (monitor_web_endpoints http).
Proof.
  unfold monitor_web_endpoints.
  repeat preserves_step; first [apply J_check_endpoint | apply J_sleep | apply J_logging].
Qed.

Lemma J_monitor_system_metrics cpu mem disk sent recv :
  preserves J (monitor_system_metrics cpu mem disk sent recv).
Proof.
  unfold monitor_system_metrics.
  repeat preserves_step;
    first [apply J_add_metric | apply J_check_alerts | apply J_sleep | apply J_logging].
Qed.

Lemma J_detect_anomalies : preserves J (detect_anomalies sqrt).
Proof.
  unfold detect_anomalies, datetime_now.
  repeat preserves_step. unfold detect_type.
  repeat preserves_step. unfold check_anomaly.
  repeat preserves_step; apply I_create_alert.
Qed.

Lemma J_generate_predictive_alerts : preserves J generate_predictive_alerts.
Proof.
  unfold generate_predictive_alerts.
  repeat preserves_step. unfold predict_metric, get_metric_history, datetime_now.
  repeat preserves_step; apply I_create_alert.
Qed.

Lemma J_ai_analytics_loop : preserves J (ai_analytics_loop sqrt).
Proof.
  unfold ai_analytics_loop.
  repeat preserves_step;
    first [apply J_detect_anomalies | apply J_generate_predictive_alerts
          | apply J_sleep | apply J_logging].
Qed.

Lemma J_step ev : preserves J (step sqrt ev).
Proof.
  destruct ev; simpl.
  - apply J_modify. reflexivity.
  - apply J_monitor_system_metrics.
  - apply J_monitor_web_endpoints.
  - apply J_ai_analytics_loop.
  - apply preserves_bind; [apply J_add_metric | intros _; apply J_check_alerts].
  - apply I_create_alert.
Qed.

Lemma I_run evs st :
  I (Monitor.alerts st) -> I (Monitor.alerts (run sqrt evs st)).
Proof.
  revert st. induction evs as [|ev evs IH]; intros st H; simpl.
  - exact H.
  - apply IH. apply (J_step ev st H).
Qed.

End AlertInvariant.

(** ** The metrics buffer *)

Lemma add_metric_spec metric_type value unit source metadata st :
  let metric :=
    PerformanceMetric.mk (Monitor.clock st) metric_type value unit source metadata in
  let buf := Monitor.metrics_buffer st ++ [metric] in
  add_metric metric_type value unit source metadata st
  = (Normal tt,
     set_metrics_buffer
       (if (Z.of_nat (length buf) >? Config.buffer_size (Monitor.config st))%Z
        then slice_from (- Config.buffer_size (Monitor.config st)) buf
        else buf)
       (set_db_metrics (Monitor.db_metrics st ++ [metric]) st)).
Proof.
  destruct st as [cfg buf0 al dbm dba ob lg clk].
  unfold add_metric. run_M.
  destruct (Z.of_nat (length (buf0 ++ _)) >? Config.buffer_size cfg)%Z; reflexivity.
Qed.

Lemma add_metric_buffer s st :
  let buf := Monitor.metrics_buffer st ++ [metric_of (Monitor.clock st) s] in
  Monitor.metrics_buffer (exec (insert s) st)
  = if (Z.of_nat (length buf) >? Config.buffer_size (Monitor.config st))%Z
    then slice_from (- Config.buffer_size (Monitor.config st)) buf
    else buf.
Proof. unfold insert, exec. rewrite add_metric_spec. reflexivity. Qed.

Lemma add_metric_frame s st :
  Monitor.config (exec (insert s) st) = Monitor.config st
  /\ Monitor.clock (exec (insert s) st) = Monitor.clock st
  /\ Monitor.alerts (exec (insert s) st) = Monitor.alerts st.
Proof. unfold insert, exec. rewrite add_metric_spec. auto. Qed.

Lemma slice_from_last {A} (c : Z) (l : list A) :
  (1 <= c)%Z -> (c < Z.of_nat (length l))%Z ->
  slice_from (- c) l = most_recent (Z.to_nat c) l.
Proof.
  intros H1 H2. unfold slice_from, most_recent.
  destruct (Z.ltb_spec (- c) 0); [|lia]. f_equal. lia.
Qed.

Lemma most_recent_snoc {A} (c : nat) (l : list A) (x : A) :
  (1 <= c)%nat ->
  most_recent c (most_recent c l ++ [x]) = most_recent c (l ++ [x]).
Proof.
  intros Hc. unfold most_recent.
  rewrite !length_app, length_drop. simpl.
  destruct (le_lt_dec (length l) c) as [Hle|Hgt].
  - replace (length l - c)%nat with 0%nat by lia. rewrite Nat.sub_0_r. reflexivity.
  - replace (length l - (length l - c) + 1 - c)%nat with 1%nat by lia.
    replace (length l + 1 - c)%nat with ((length l - c) + 1)%nat by lia.
    rewrite <- drop_drop. f_equal.
    rewrite drop_app_le by lia. reflexivity.
Qed.

Lemma length_most_recent {A} (c : nat) (l : list A) :
  length (most_recent c l) = Nat.min c (length l).
Proof. unfold most_recent. rewrite length_drop. lia. Qed.

(** One insert into a buffer of capacity at least 1 that holds the most
    recent samples keeps the most recent samples. *)
Lemma insert_most_recent s st inserted :
  (1 <= Config.buffer_size (Monitor.config st))%Z ->
  Monitor.metrics_buffer st
  = most_recent (Z.to_nat (Config.buffer_size (Monitor.config st))) inserted ->
  Monitor.metrics_buffer (exec (insert s) st)
  = most_recent (Z.to_nat (Config.buffer_size (Monitor.config st)))
      (inserted ++ [metric_of (Monitor.clock st) s]).
Proof.
  intros Hc Hb. rewrite add_metric_buffer. cbv zeta.
  set (c := Config.buffer_size (Monitor.config st)) in *.
  set (m := metric_of (Monitor.clock st) s).
  rewrite Hb.
  destruct (Z.gtb_spec (Z.of_nat (length (most_recent (Z.to_nat c) inserted ++ [m]))) c)
    as [Hgt|Hle].
  - rewrite slice_from_last by lia. apply most_recent_snoc. lia.
  - rewrite length_app, length_most_recent in Hle. simpl in Hle.
    unfold most_recent.
    replace (length inserted - Z.to_nat c)%nat with 0%nat by lia.
    rewrite length_app. simpl.
    replace (length inserted + 1 - Z.to_nat c)%nat with 0%nat by lia.
    reflexivity.
Qed.

(** With a capacity of at least 1, the buffer after any number of inserts
    into the empty buffer is the most recent part of what was inserted. *)
Lemma buffer_holds_most_recent (cfg : Config.t) (now : Z) (samples : list sample) :
  (1 <= Config.buffer_size cfg)%Z ->
  Monitor.metrics_buffer (exec (for_each samples insert) (init cfg now))
  = most_recent (Z.to_nat (Config.buffer_size cfg)) (map (metric_of now) samples).
Proof.
  intros Hc.
  assert (G : forall samples st inserted,
             Monitor.config st = cfg -> Monitor.clock st = now ->
             Monitor.metrics_buffer st
             = most_recent (Z.to_nat (Config.buffer_size cfg)) inserted ->
             Monitor.metrics_buffer (exec (for_each samples insert) st)
             = most_recent (Z.to_nat (Config.buffer_size cfg))
                 (inserted ++ map (metric_of now) samples)).
  { clear samples. induction samples as [|s samples IH]; intros st inserted Hcfg Hclk Hb.
    - simpl. now rewrite app_nil_r.
    - simpl. unfold exec, bind.
      pose proof (add_metric_frame s st) as (F1 & F2 & _).
      pose proof (insert_most_recent s st inserted) as Hs.
      rewrite Hcfg in Hs. specialize (Hs Hc Hb).
      unfold exec in F1, F2, Hs.
      assert (Hn : fst (insert s st) = Normal tt)
        by (unfold insert; now rewrite add_metric_spec).
      destruct (insert s st) as [r st1]. simpl in *. subst r.
      specialize (IH st1 (inserted ++ [metric_of (Monitor.clock st) s])).
      unfold exec in IH. rewrite IH; [|congruence|congruence|exact Hs].
      rewrite <- app_assoc. simpl. now rewrite Hclk. }
  apply (G samples (init cfg now) []); reflexivity.
Qed.

Lemma slice_from_zero {A} (l : list A) : slice_from (- 0) l = l.
Proof.
  unfold slice_from. change (- 0)%Z with 0%Z. cbn [Z.ltb Z.compare].
  replace (Z.min 0 (Z.of_nat (length l))) with 0%Z by lia. reflexivity.
Qed.

(** With capacity 0 nothing is ever evicted: the buffer is everything that
    was inserted. *)
Lemma buffer_size_zero_never_evicts (cfg : Config.t) (now : Z) (samples : list sample) :
  Config.buffer_size cfg = 0%Z ->
  Monitor.metrics_buffer (exec (for_each samples insert) (init cfg now))
  = map (metric_of now) samples.
Proof.
  intros Hc.
  assert (G : forall samples st,
             Monitor.config st = cfg -> Monitor.clock st = now ->
             Monitor.metrics_buffer (exec (for_each samples insert) st)
             = Monitor.metrics_buffer st ++ map (metric_of now) samples).
  { clear samples. induction samples as [|s samples IH]; intros st Hcfg Hclk.
    - simpl. now rewrite app_nil_r.
    - simpl. unfold exec, bind.
      pose proof (add_metric_frame s st) as (F1 & F2 & _).
      pose proof (add_metric_buffer s st) as Hs. cbv zeta in Hs.
      rewrite Hcfg, Hc, slice_from_zero in Hs.
      assert (Hb : Monitor.metrics_buffer (exec (insert s) st)
                   = Monitor.metrics_buffer st ++ [metric_of (Monitor.clock st) s])
        by (rewrite Hs; now destruct (_ >? 0)%Z).
      unfold exec in F1, F2, Hb.
      assert (Hn : fst (insert s st) = Normal tt)
        by (unfold insert; now rewrite add_metric_spec).
      destruct (insert s st) as [r st1]. simpl in *. subst r.
      specialize (IH st1). unfold exec in IH. rewrite IH; [|congruence|congruence].
      rewrite Hb, <- app_assoc. simpl. now rewrite Hclk. }
  apply (G samples (init cfg now)); reflexivity.
Qed.

(** C9 at capacity 0. Three samples inserted into a buffer of capacity 0
    all stay in the buffer: the slice [buffer[-0:]] is the whole list, so
    nothing is ever evicted. *)
Theorem buffer_size_zero_keeps_everything :
  Monitor.metrics_buffer
    (exec (for_each [cpu 1; cpu 2; cpu 3] insert) (init (config_with_buffer_size 0) epoch))
  = map (metric_of epoch) [cpu 1; cpu 2; cpu 3].
Proof. vm_compute. reflexivity. Qed.

(** ** The alert engine *)

Lemma has_open_false_filter alerts metric_type :
  has_open alerts metric_type = false ->
  List.filter (is_open metric_type) alerts = [].
Proof.
  unfold has_open. induction alerts as [|a l IH]; simpl; [reflexivity|].
  intros H. apply orb_false_elim in H as [Ha Hl]. rewrite Ha. now apply IH.
Qed.

Lemma is_open_new_alert mt' metric_type severity threshold current_value message source st :
  is_open mt'
    (new_alert metric_type severity threshold current_value message source st)
  = String.eqb metric_type mt'.
Proof. reflexivity. Qed.

Lemma create_alert_unique_open metric_type severity threshold current_value message source :
  preserves (fun st => unique_open (Monitor.alerts st))
    (create_alert metric_type severity threshold current_value message source).
Proof.
  intros st H. unfold exec.
  destruct (create_alert_cases metric_type severity threshold current_value message
              source st) as [[Ho E]|[Ho E]]; rewrite E; simpl; [exact H|].
  rewrite record_alert_alerts. intros mt'.
  rewrite List.filter_app, length_app. simpl.
  rewrite is_open_new_alert.
  destruct (String.eqb_spec metric_type mt') as [<-|Hne]; simpl.
  - rewrite (has_open_false_filter _ _ Ho). simpl. lia.
  - specialize (H mt'). lia.
Qed.

Lemma create_alert_extends old metric_type severity threshold current_value message source :
  preserves (fun st => extends old (Monitor.alerts st))
    (create_alert metric_type severity threshold current_value message source).
Proof.
  intros st [new H]. unfold exec.
  destruct (create_alert_cases metric_type severity threshold current_value message
              source st) as [[Ho E]|[Ho E]]; rewrite E; simpl.
  - now exists new.
  - rewrite record_alert_alerts, H, <- app_assoc. now eexists.
Qed.

Lemma filter_is_open_for_le metric_type source alerts :
  (open_count metric_type source alerts
   <= length (List.filter (is_open metric_type) alerts))%nat.
Proof.
  unfold open_count. induction alerts as [|a l IH]; simpl; [lia|].
  unfold is_open_for at 1.
  destruct (is_open metric_type a); simpl.
  - destruct (String.prefix _ _); simpl; lia.
  - exact IH.
Qed.

(** C2. Along every run of the monitor (system ticks, endpoint ticks,
    analytics ticks, single samples and direct [create_alert] calls, in any
    order, from the initial state), and for every pair (metric_type,
    source), the alert list never holds more than one unresolved alert of
    that pair; it never even holds two unresolved alerts of one metric
    type. *)
Theorem dedup_invariant :
  forall (sqrt : Q -> Q) (cfg : Config.t) (now : Z) (evs : list event)
         (metric_type source : string),
    let alerts := Monitor.alerts (run sqrt evs (init cfg now)) in
    (open_count metric_type source alerts <= 1)%nat
    /\ (length (List.filter (is_open metric_type) alerts) <= 1)%nat.
Proof.
  intros sqrt cfg now evs metric_type source alerts.
  assert (H : unique_open alerts).
  { apply (I_run unique_open).
    - intros. apply create_alert_unique_open.
    - intros mt. simpl. lia. }
  pose proof (filter_is_open_for_le metric_type source alerts) as Hle.
  specialize (H metric_type). lia.
Qed.

(** C10. When the alert list holds an unresolved alert whose metric type is
    the requested one, [create_alert] raises AttributeError and leaves the
    whole state as it was: no alert is appended, nothing is written to the
    store, no notification is sent. *)
Theorem create_alert_raises_AttributeError :
  forall (st : Monitor.t) (metric_type severity : string) (threshold current_value : Q)
         (message : Message) (source : string) (a : PerformanceAlert.t),
    In a (Monitor.alerts st) ->
    PerformanceAlert.resolved a = false ->
    PerformanceAlert.metric_type a = metric_type ->
    create_alert metric_type severity threshold current_value message source st
    = (Raised AttributeError, st).
Proof.
  intros st metric_type severity threshold current_value message source a Hin Hr Ht.
  apply create_alert_blocked. apply has_open_true. now exists a.
Qed.

Lemma create_alert_raises_AttributeError_witness :
  exists a,
    In a (Monitor.alerts st_warning_open)
    /\ create_alert "cpu_usage" "critical" 90%Q 95%Q (MsgCritical "cpu_usage" 95%Q 90%Q)
         "system" st_warning_open
       = (Raised AttributeError, st_warning_open).
Proof.
  eexists. split.
  - left. reflexivity.
  - eapply create_alert_raises_AttributeError.
    + left. reflexivity.
    + reflexivity.
    + reflexivity.
Defined.

Lemma geq_true value bound : geq value bound = true <-> (bound <= value)%Q.
Proof. unfold geq. apply Qle_bool_iff. Qed.

Lemma geq_false value bound : (value < bound)%Q -> geq value bound = false.
Proof.
  intros H. destruct (geq value bound) eqn:E; [|reflexivity].
  apply geq_true in E. exfalso. exact (Qlt_not_le _ _ H E).
Qed.

(** C1, as the code has it. A sample strictly below the warning bound (the
    warning bound not above the critical one) makes [check_alerts] return
    without any effect: no alert is created, and no open alert is resolved
    or otherwise changed; recording the sample with [add_metric] first
    leaves the alert list as it was, too. *)
Theorem check_alerts_below_warning_noop :
  forall (st : Monitor.t) (metric_type source unit : string) (value : Q)
         (thresholds : Thresholds) (w : Q),
    Config.alerts (Monitor.config st) !! metric_type = Some thresholds ->
    warning thresholds = Some w ->
    (forall c, critical thresholds = Some c -> (w <= c)%Q) ->
    (value < w)%Q ->
    check_alerts metric_type value source st = (Normal tt, st)
    /\ Monitor.alerts
         (exec (add_metric metric_type value unit source None >>
                check_alerts metric_type value source) st)
       = Monitor.alerts st.
Proof.
  intros st metric_type source unit value thresholds w Hth Hw Hc Hlt.
  assert (G : forall st', Monitor.config st' = Monitor.config st ->
                          check_alerts metric_type value source st' = (Normal tt, st')).
  { intros st' Hcfg. unfold check_alerts, bind, gets. rewrite Hcfg, Hth, Hw.
    destruct (critical thresholds) as [c|] eqn:Ec.
    - rewrite geq_false by (eapply Qlt_le_trans; [exact Hlt | now apply Hc]).
      now rewrite geq_false.
    - now rewrite geq_false. }
  split; [now apply G|].
  unfold exec, bind. rewrite add_metric_spec. cbv zeta. now rewrite G.
Qed.

Lemma check_alerts_below_warning_noop_witness :
  check_alerts "cpu_usage" 11%Q "system" st_warning_open = (Normal tt, st_warning_open)
  /\ Monitor.alerts
       (exec (add_metric "cpu_usage" 11%Q "percent" "system" None >>
              check_alerts "cpu_usage" 11%Q "system") st_warning_open)
     = Monitor.alerts st_warning_open.
Proof.
  apply (check_alerts_below_warning_noop st_warning_open "cpu_usage" "system" "percent"
           11%Q {| warning := Some 70%Q; critical := Some 90%Q |} 70%Q).
  - reflexivity.
  - reflexivity.
  - intros c Hc. injection Hc as <-. discriminate.
  - reflexivity.
Defined.

(** C1 fails as stated: with a warning alert open for (cpu_usage, system),
    a later sample of 11 for that key, below the warning bound 70, resolves
    nothing; the alert stays unresolved with no resolution time. *)
Lemma resolution_counterexample :
  let st' := exec (check_alerts "cpu_usage" 11%Q "system") st_warning_open in
  (11 < 70)%Q
  /\ open_count "cpu_usage" "system" (Monitor.alerts st_warning_open) = 1%nat
  /\ open_count "cpu_usage" "system" (Monitor.alerts st') = 1%nat
  /\ forallb (fun a => negb (PerformanceAlert.resolved a)
                       && negb (bool_decide (is_Some (PerformanceAlert.resolved_at a))))
       (Monitor.alerts st') = true.
Proof. vm_compute. repeat split; reflexivity. Qed.

Lemma check_alerts_extends old metric_type value source :
  preserves (fun st => extends old (Monitor.alerts st))
    (check_alerts metric_type value source).
Proof.
  unfold check_alerts. repeat preserves_step; apply create_alert_extends.
Qed.

(** C3, as the code has it. For a sample at or above the critical bound:
    when no unresolved alert of that metric type is in the list,
    [check_alerts] returns normally and appends one unresolved critical
    alert carrying the bound and the value; and in every case the alerts
    already in the list stay as they were, so an open warning alert is
    never upgraded. *)
Theorem check_alerts_critical :
  forall (st : Monitor.t) (metric_type source : string) (value : Q)
         (thresholds : Thresholds) (c : Q),
    Config.alerts (Monitor.config st) !! metric_type = Some thresholds ->
    critical thresholds = Some c ->
    (c <= value)%Q ->
    (has_open (Monitor.alerts st) metric_type = false ->
     result (check_alerts metric_type value source) st = Normal tt
     /\ Monitor.alerts (exec (check_alerts metric_type value source) st)
        = Monitor.alerts st
          ++ [new_alert metric_type "critical" c value
                (MsgCritical metric_type value c) source st])
    /\ extends (Monitor.alerts st)
         (Monitor.alerts (exec (check_alerts metric_type value source) st)).
Proof.
  intros st metric_type source value thresholds c Hth Hc Hle. split.
  - intros Ho. unfold result, exec, check_alerts, bind, gets.
    rewrite Hth, Hc. rewrite (proj2 (geq_true value c) Hle).
    rewrite create_alert_fresh by exact Ho. simpl.
    split; [reflexivity | apply record_alert_alerts].
  - apply (check_alerts_extends (Monitor.alerts st)). exists []. now rewrite app_nil_r.
Qed.

Lemma check_alerts_critical_witness :
  let st := init default_config epoch in
  result (check_alerts "cpu_usage" 95%Q "system") st = Normal tt
  /\ Monitor.alerts (exec (check_alerts "cpu_usage" 95%Q "system") st)
     = Monitor.alerts st
       ++ [new_alert "cpu_usage" "critical" 90%Q 95%Q
             (MsgCritical "cpu_usage" 95%Q 90%Q) "system" st]
  /\ extends (Monitor.alerts st)
       (Monitor.alerts (exec (check_alerts "cpu_usage" 95%Q "system") st)).
Proof.
  destruct (check_alerts_critical (init default_config epoch) "cpu_usage" "system" 95%Q
              {| warning := Some 70%Q; critical := Some 90%Q |} 90%Q)
    as [H1 H2].
  - reflexivity.
  - reflexivity.
  - discriminate.
  - destruct (H1 eq_refl) as [H3 H4]. split; [exact H3|]. split; [exact H4 | exact H2].
Defined.

(** C3 fails as stated: with a warning alert open for (cpu_usage, system),
    a sample of 95 for that key, above the critical bound 90, raises
    AttributeError out of [check_alerts]; the list still holds the warning
    alert only, and no critical alert is open. *)
Lemma upgrade_counterexample :
  let st' := exec (check_alerts "cpu_usage" 95%Q "system") st_warning_open in
  (90 <= 95)%Q
  /\ map PerformanceAlert.severity
       (List.filter (is_open_for "cpu_usage" "system") (Monitor.alerts st_warning_open))
     = ["warning"]
  /\ result (check_alerts "cpu_usage" 95%Q "system") st_warning_open
     = Raised AttributeError
  /\ map PerformanceAlert.severity (Monitor.alerts st') = ["warning"].
Proof. vm_compute. repeat split; try reflexivity. discriminate. Qed.

(** ** The endpoint collector *)

Lemma create_alert_keeps_samples metric_type severity threshold current_value message source st :
  let st' :=
    exec (create_alert metric_type severity threshold current_value message source) st in
  Monitor.metrics_buffer st' = Monitor.metrics_buffer st
  /\ Monitor.db_metrics st' = Monitor.db_metrics st.
Proof.
  cbv zeta. unfold exec.
  destruct (create_alert_cases metric_type severity threshold current_value message
              source st) as [[_ E]|[_ E]]; rewrite E; simpl.
  - auto.
  - pose proof (record_alert_frame
                  (new_alert metric_type severity threshold current_value message source st)
                  st) as (_ & F2 & F3 & _). auto.
Qed.

Lemma loop_iteration_returns (body : M Datatypes.unit) (origin : string) (n : Z) st :
  result (try_catch body (fun e => logging (LogError origin e) >> sleep n)) st = Normal tt.
Proof.
  unfold result, try_catch. destruct (body st) as [[[]|e] st']; reflexivity.
Qed.

(** C8, as the code has it. A check that ends in a timeout or a connection
    failure records no sample: the metrics buffer and the metrics table
    stay as they were. A timeout only requests a critical availability
    alert (bound 100, value 0) for the source "system"; a connection
    failure is only logged and the check returns normally, so the loop goes
    on with the next endpoint. One iteration of the collector's loop always
    returns normally, so the loop goes on with the next tick. *)
Theorem check_endpoint_failure :
  (forall st endpoint e,
      Monitor.metrics_buffer (exec (check_endpoint endpoint (Failed e)) st)
      = Monitor.metrics_buffer st
      /\ Monitor.db_metrics (exec (check_endpoint endpoint (Failed e)) st)
         = Monitor.db_metrics st)
  /\ (forall st endpoint,
         check_endpoint endpoint (Failed Timeout) st = timeout_alert endpoint st)
  /\ (forall st endpoint,
         check_endpoint endpoint (Failed ConnectionError) st
         = (Normal tt,
            set_log (Monitor.log st
                     ++ [LogError ("checking endpoint " ++ name endpoint) ConnectionError])
              st))
  /\ (forall st http, result (monitor_web_endpoints http) st = Normal tt).
Proof.
  repeat split.
  - destruct e; try reflexivity.
    apply (create_alert_keeps_samples "availability" "critical").
  - destruct e; try reflexivity.
    apply (create_alert_keeps_samples "availability" "critical").
  - intros st http. unfold monitor_web_endpoints. apply loop_iteration_returns.
Qed.

(** C8 fails as stated: from the initial state, a timeout of the endpoint
    "api" and a connection failure both leave the metrics buffer and the
    metrics table empty; no availability sample of value 0 is recorded. *)
Lemma endpoint_failure_counterexample :
  let st := init default_config epoch in
  Monitor.metrics_buffer (exec (check_endpoint api (Failed Timeout)) st) = []
  /\ Monitor.db_metrics (exec (check_endpoint api (Failed Timeout)) st) = []
  /\ Monitor.metrics_buffer (exec (check_endpoint api (Failed ConnectionError)) st) = []
  /\ Monitor.db_metrics (exec (check_endpoint api (Failed ConnectionError)) st) = [].
Proof. vm_compute. repeat split; reflexivity. Qed.

(** ** Alerts appended by the analytics *)

Lemma grown_by_refl Good st : grown_by Good st st.
Proof.
  unfold grown_by. repeat split. exists []. split; [now rewrite app_nil_r | constructor].
Qed.

Lemma create_alert_grown_by Good st0 metric_type severity threshold current_value message
    source st :
  grown_by Good st0 st ->
  Good (new_alert metric_type severity threshold current_value message source st) ->
  grown_by Good st0
    (exec (create_alert metric_type severity threshold current_value message source) st).
Proof.
  intros (H1 & H2 & H3 & H4 & new & H5 & H6) Hg. unfold exec.
  destruct (create_alert_cases metric_type severity threshold current_value message
              source st) as [[_ E]|[_ E]]; rewrite E; simpl.
  - unfold grown_by. repeat split; try assumption. now exists new.
  - pose proof (record_alert_frame
                  (new_alert metric_type severity threshold current_value message source st)
                  st) as (F1 & F2 & F3 & F4).
    unfold grown_by. rewrite F1, F2, F3, F4, record_alert_alerts.
    repeat split; try assumption.
    eexists. split; [rewrite H5, <- app_assoc; reflexivity|].
    apply Forall_app. split; [exact H6|]. constructor; [exact Hg | constructor].
Qed.

Lemma prefix_nil (c : string) : String.prefix "" c = true.
Proof. destruct c; reflexivity. Qed.

Lemma prefix_cons x (b c : string) :
  String.prefix (String x b) (String x c) = String.prefix b c.
Proof. simpl. destruct (Ascii.ascii_dec x x); [reflexivity | congruence]. Qed.

Lemma prefix_app (a b c : string) :
  String.prefix (a ++ b) (a ++ c) = String.prefix b c.
Proof.
  induction a as [|x a IH].
  - reflexivity.
  - change (String.prefix (String x (a ++ b)) (String x (a ++ c)) = String.prefix b c).
    rewrite prefix_cons. exact IH.
Qed.

Lemma prefix_self_app (a b : string) : String.prefix a (a ++ b) = true.
Proof.
  induction a as [|x a IH].
  - apply prefix_nil.
  - change (String.prefix (String x a) (String x (a ++ b)) = true).
    rewrite prefix_cons. exact IH.
Qed.

Lemma new_alert_key metric_type severity threshold current_value message source st :
  String.prefix (key_prefix metric_type source)
    (PerformanceAlert.alert_id
       (new_alert metric_type severity threshold current_value message source st))
  = true.
Proof.
  unfold key_prefix, new_alert. cbn [PerformanceAlert.alert_id].
  rewrite prefix_app.
  match goal with
  | |- String.prefix _ (_ ++ _ ++ _ ++ ?x) = true =>
      change (String.prefix (String "_"%char (source ++ "_"))
                (String "_"%char (source ++ "_" ++ x)) = true)
  end.
  rewrite prefix_cons, prefix_app. apply prefix_self_app.
Qed.

(** ** The trend predictor *)

(** [predict_metric], one case after the other. *)
Lemma predict_metric_spec metric_type st :
  predict_metric metric_type st =
  if (length (history st metric_type) <? 20)%nat then (Normal tt, st)
  else match Config.alerts (Monitor.config st) !! metric_type with
       | None => (Normal tt, st)
       | Some thresholds =>
           if geq (prediction st metric_type) (default 90%Q (critical thresholds))
           then create_alert metric_type "warning" (default 90%Q (critical thresholds))
                  (prediction st metric_type)
                  (MsgPredicted metric_type (prediction st metric_type)) "prediction" st
           else (Normal tt, st)
       end.
Proof.
  unfold predict_metric, get_metric_history, prediction, history.
  unfold bind at 1. unfold datetime_now at 1, gets at 1.
  unfold bind at 1. unfold gets at 1. unfold bind at 1. unfold ret at 1.
  set (h := select_history metric_type (Monitor.clock st) 24 (Monitor.db_metrics st)).
  destruct (length h <? 20)%nat eqn:E; [reflexivity|].
  unfold bind at 1. unfold datetime_now at 1, gets at 1.
  rewrite length_map.
  destruct (length h =? 0)%nat eqn:E0.
  { apply Nat.eqb_eq in E0. rewrite E0 in E. discriminate. }
  unfold bind at 1. unfold gets at 1.
  destruct (Config.alerts (Monitor.config st) !! metric_type) as [th|]; [|reflexivity].
  destruct (geq _ _); reflexivity.
Qed.

Lemma history_frame st0 st metric_type :
  Monitor.db_metrics st = Monitor.db_metrics st0 ->
  Monitor.clock st = Monitor.clock st0 ->
  history st metric_type = history st0 metric_type.
Proof. intros H1 H2. unfold history. now rewrite H1, H2. Qed.

Lemma predict_metric_grown st0 metric_type :
  preserves (grown_by (predicted_in st0) st0) (predict_metric metric_type).
Proof.
  intros st H. unfold exec. rewrite predict_metric_spec.
  pose proof H as (_ & _ & Hdb & Hclk & _).
  destruct (length (history st metric_type) <? 20)%nat eqn:E; [exact H|].
  destruct (Config.alerts (Monitor.config st) !! metric_type) as [th|]; [|exact H].
  destruct (geq _ _); [|exact H].
  apply create_alert_grown_by; [exact H|].
  unfold predicted_in. split; [reflexivity|]. split.
  - cbn [new_alert PerformanceAlert.metric_type].
    rewrite <- (history_frame st0 st metric_type Hdb Hclk).
    apply Nat.ltb_ge in E. exact E.
  - apply new_alert_key.
Qed.

Lemma generate_predictive_alerts_grown st :
  grown_by (predicted_in st) st (exec generate_predictive_alerts st).
Proof.
  apply (preserves_for_each (grown_by (predicted_in st) st)).
  - intros mt _. apply predict_metric_grown.
  - apply grown_by_refl.
Qed.

(** C6. Every alert that a run of the trend predictor appends has severity
    "warning", and its metric type has at least 20 rows in the 24-hour
    history the run read; so no alert is created for a metric type with
    fewer than 20 historical points, and none is critical. *)
Theorem predictive_alerts_gating :
  forall st : Monitor.t,
    exists new,
      Monitor.alerts (exec generate_predictive_alerts st) = Monitor.alerts st ++ new
      /\ Forall (fun a =>
                   PerformanceAlert.severity a = "warning"
                   /\ (20 <= length (history st (PerformanceAlert.metric_type a)))%nat)
           new.
Proof.
  intros st.
  destruct (generate_predictive_alerts_grown st) as (_ & _ & _ & _ & new & H & Hall).
  exists new. split; [exact H|].
  apply (List.Forall_impl _ (P := predicted_in st)); [|exact Hall].
  intros a (H1 & H2 & _). auto.
Qed.

(** The predictor does emit: for the falling samples of [st_falling] it
    appends one alert, of severity "warning", on 20 rows of history. *)
Lemma predictive_alert_example :
  map PerformanceAlert.severity
    (Monitor.alerts (exec generate_predictive_alerts st_falling)) = ["warning"]
  /\ length (history st_falling "cpu_usage") = 20%nat.
Proof. split; vm_compute; reflexivity. Qed.

(** ** Least squares *)

Lemma fold_left_Qplus_acc (l : list Q) (a : Q) :
  (fold_left Qplus l a == a + fold_left Qplus l 0)%Q.
Proof.
  revert a. induction l as [|x l IH]; intros a; simpl.
  - ring.
  - rewrite (IH (a + x)%Q), (IH (0 + x)%Q). ring.
Qed.

Lemma sum_cons (x : Q) (l : list Q) : (sum (x :: l) == x + sum l)%Q.
Proof. unfold sum. simpl. rewrite fold_left_Qplus_acc. ring. Qed.

Lemma len_cons {A} (x : A) (l : list A) : (len (x :: l) == len l + 1)%Q.
Proof.
  unfold len. cbn [length]. rewrite Nat2Z.inj_succ. unfold Z.succ.
  rewrite inject_Z_plus. reflexivity.
Qed.

Lemma len_nonzero {A} (l : list A) : (1 <= length l)%nat -> ~ (len l == 0)%Q.
Proof.
  intros H E. unfold len, Qeq in E. simpl in E. lia.
Qed.

Lemma sum_squares_nonneg {A} (f : A -> Q) (l : list A) :
  (0 <= sum (map (fun p => f p * f p) l))%Q.
Proof.
  induction l as [|p l IH]; simpl.
  - discriminate.
  - rewrite sum_cons. nra.
Qed.

Section LeastSquares.

Variable points : list (Q * Q).

Let N := len points.
Let St := sum (map fst points).
Let Sv := sum (map snd points).
Let Stv := sum (map (fun p => (fst p * snd p)%Q) points).
Let Stt := sum (map (fun p => (fst p * fst p)%Q) points).
Let Svv := sum (map (fun p => (snd p * snd p)%Q) points).

Lemma sse_expand (a b : Q) :
  (sse a b points ==
   Svv - 2 * a * Sv - 2 * b * Stv + a * a * N + 2 * a * b * St + b * b * Stt)%Q.
Proof.
  unfold sse, N, St, Sv, Stv, Stt, Svv. clear.
  induction points as [|p l IH]; simpl.
  - unfold sum, len. simpl. ring.
  - rewrite !sum_cons, len_cons, IH. ring.
Qed.

Lemma shift_expand (x y : Q) :
  (sum (map (fun p => (x + y * fst p) * (x + y * fst p)) points)
   == x * x * N + 2 * x * y * St + y * y * Stt)%Q.
Proof.
  unfold N, St, Stt. clear.
  induction points as [|p l IH]; simpl.
  - unfold sum, len. simpl. ring.
  - rewrite !sum_cons, len_cons, IH. ring.
Qed.

(** A line that satisfies the two normal equations has the least sum of
    squared errors. *)
Lemma normal_equations_minimise (a b : Q) :
  (N * a + St * b == Sv)%Q -> (St * a + Stt * b == Stv)%Q ->
  forall a' b', (sse a b points <= sse a' b' points)%Q.
Proof.
  intros H1 H2 a' b'.
  pose proof (sum_squares_nonneg (fun p => (a' - a) + (b' - b) * fst p)%Q points) as Hpos.
  rewrite shift_expand in Hpos.
  rewrite !sse_expand. rewrite <- H1, <- H2.
  apply Qle_minus_iff.
  match goal with |- (0 <= ?e)%Q =>
    assert (E : (e == (a' - a) * (a' - a) * N + 2 * (a' - a) * (b' - b) * St
                      + (b' - b) * (b' - b) * Stt)%Q) by ring
  end.
  rewrite E. exact Hpos.
Qed.

End LeastSquares.

Lemma combine_fst {A B} (l1 : list A) (l2 : list B) :
  length l1 = length l2 -> map fst (combine l1 l2) = l1.
Proof.
  revert l2. induction l1 as [|x l1 IH]; intros [|y l2] H; simpl in *;
    try discriminate; [reflexivity|].
  f_equal. apply IH. lia.
Qed.

Lemma combine_snd {A B} (l1 : list A) (l2 : list B) :
  length l1 = length l2 -> map snd (combine l1 l2) = l2.
Proof.
  revert l2. induction l1 as [|x l1 IH]; intros [|y l2] H; simpl in *;
    try discriminate; [reflexivity|].
  f_equal. apply IH. lia.
Qed.

Lemma slope_when_defined times values :
  ~ (denominator times == 0)%Q ->
  slope times values
  = ((len times * sum_products times values - sum times * sum values)
     / denominator times)%Q.
Proof.
  intros H. unfold slope. fold (denominator times).
  destruct (Qeq_bool (denominator times) 0) eqn:E; [|reflexivity].
  apply Qeq_bool_iff in E. contradiction.
Qed.

(** X25. Over exact rationals, when the times are not all equal, the slope
    of [generate_predictive_alerts] is the least-squares slope over the
    time coordinate it is given: with the intercept through the centroid
    it has the least sum of squared errors among all lines, over the points
    (time, value). *)
Theorem slope_minimises :
  forall times values : list Q,
    length times = length values -> (1 <= length times)%nat ->
    ~ (denominator times == 0)%Q ->
    forall a b,
      (sse (intercept times values) (slope times values) (combine times values)
       <= sse a b (combine times values))%Q.
Proof.
  intros times values Hlen Hn Hd.
  assert (HN : ~ (len times == 0)%Q) by now apply len_nonzero.
  apply normal_equations_minimise.
  - rewrite combine_fst, combine_snd by assumption.
    unfold intercept.
    replace (len (combine times values)) with (len times)
      by (unfold len; now rewrite length_combine, <- Hlen, Nat.min_id).
    field. exact HN.
  - rewrite combine_fst by assumption.
    unfold intercept. rewrite slope_when_defined by exact Hd.
    unfold denominator in *. unfold sum_products.
    replace (map (fun p : Q * Q => (fst p * fst p)%Q) (combine times values))
      with (map (fun t => (t * t)%Q) times).
    + field. split; assumption.
    + rewrite <- (combine_fst times values Hlen) at 1. now rewrite map_map.
Qed.

Lemma slope_minimises_witness :
  (slope [0; 1; 3] [5; 6; 11] == 29 # 14)%Q
  /\ (intercept [0; 1; 3] [5; 6; 11] == 32 # 7)%Q
  /\ forall a b,
       (sse (intercept [0; 1; 3] [5; 6; 11]) (slope [0; 1; 3] [5; 6; 11])
          (combine [0; 1; 3] [5; 6; 11])
        <= sse a b (combine [0; 1; 3] [5; 6; 11]))%Q.
Proof.
  split; [vm_compute; reflexivity|]. split; [vm_compute; reflexivity|].
  apply (slope_minimises [0; 1; 3] [5; 6; 11])%Q.
  - reflexivity.
  - simpl. lia.
  - vm_compute. intros H. discriminate H.
Defined.

(** C7, at a failing input. Twenty cpu_usage samples rise from 31 to 69,
    one every 30 minutes, that is by 4 per hour, and the predictor runs 30
    minutes after the last one. The least-squares line over elapsed time
    has slope 4 and reaches 95 six hours after the present, above the
    critical bound 90. The code measures the time of a sample as the hours
    that passed since it, [(now - m.timestamp)], so its slope is -4; it
    projects 69 - 24 = 45 and raises no alert. *)
Theorem rising_trend_projected_to_fall :
  let now := Monitor.clock st_rising in
  let samples := history st_rising "cpu_usage" in
  let values := map PerformanceMetric.value samples in
  values = rising
  /\ (slope (map (fun m => elapsed_hours now (PerformanceMetric.timestamp m)) samples) values
      == 4)%Q
  /\ (spec_projection now samples == 95)%Q
  /\ (slope (map (hours_ago now) samples) values == -4)%Q
  /\ (prediction st_rising "cpu_usage" == 45)%Q
  /\ Config.alerts (Monitor.config st_rising) !! "cpu_usage"
     = Some {| warning := Some 70%Q; critical := Some 90%Q |}
  /\ Monitor.alerts st_rising = []
  /\ result generate_predictive_alerts st_rising = Normal tt
  /\ Monitor.alerts (exec generate_predictive_alerts st_rising) = [].
Proof.
  cbv zeta.
  split; [vm_compute; reflexivity|].
  split; [vm_compute; reflexivity|].
  split; [vm_compute; reflexivity|].
  split; [vm_compute; reflexivity|].
  split; [vm_compute; reflexivity|].
  split; [reflexivity|].
  split; [vm_compute; reflexivity|].
  split; vm_compute; reflexivity.
Qed.

(** The converse case: for twenty cpu_usage samples falling from 100 to 81,
    half an hour apart, the code projects 93 and requests a prediction
    alert against the critical bound 90, while the least-squares line over
    elapsed time, evaluated 6 hours after the present, gives 68. *)
Lemma falling_trend_projected_to_rise :
  (prediction st_falling "cpu_usage" == 93)%Q
  /\ (spec_projection (Monitor.clock st_falling) (history st_falling "cpu_usage") == 68)%Q
  /\ map PerformanceAlert.alert_id
       (Monitor.alerts (exec generate_predictive_alerts st_falling))
     = ["cpu_usage_prediction_1700036000"].
Proof.
  split; [vm_compute; reflexivity|].
  split; vm_compute; reflexivity.
Qed.

(** ** The anomaly detector *)

Lemma dict_get_append k' k v d :
  dict_get k' (dict_append k v d)
  = if String.eqb k k' then Some (default [] (dict_get k d) ++ [v]) else dict_get k' d.
Proof.
  unfold dict_get. induction d as [|[k0 vs] d IH]; simpl.
  - destruct (String.eqb k k'); reflexivity.
  - destruct (String.eqb_spec k0 k) as [->|Hne]; simpl.
    + destruct (String.eqb k k'); reflexivity.
    + destruct (String.eqb_spec k0 k') as [->|Hne'].
      * destruct (String.eqb_spec k k') as [Heq|Hneq]; [congruence | reflexivity].
      * rewrite IH. destruct (String.eqb_spec k k') as [->|]; [|reflexivity].
        destruct (String.eqb_spec k0 k'); [congruence | reflexivity].
Qed.

Lemma dict_append_keys k v d :
  map fst (dict_append k v d)
  = if existsb (String.eqb k) (map fst d) then map fst d else map fst d ++ [k].
Proof.
  induction d as [|[k0 vs] d IH]; simpl; [reflexivity|].
  destruct (String.eqb_spec k0 k) as [->|Hne]; simpl.
  - now rewrite String.eqb_refl.
  - destruct (String.eqb_spec k k0); [congruence|]. simpl. rewrite IH.
    destruct (existsb _ _); reflexivity.
Qed.

Lemma dict_append_NoDup k v d :
  NoDup (map fst d) -> NoDup (map fst (dict_append k v d)).
Proof.
  intros H. rewrite dict_append_keys.
  destruct (existsb (String.eqb k) (map fst d)) eqn:E; [exact H|].
  apply NoDup_app. split; [exact H|]. split.
  - intros x Hx Hk. apply list_elem_of_In in Hx.
    apply list_elem_of_singleton in Hk. subst x.
    assert (existsb (String.eqb k) (map fst d) = true); [|congruence].
    apply existsb_exists. exists k. split; [exact Hx | apply String.eqb_refl].
  - apply NoDup_singleton.
Qed.

Lemma dict_get_In k vs d :
  NoDup (map fst d) -> In (k, vs) d -> dict_get k d = Some vs.
Proof.
  unfold dict_get. induction d as [|[k0 vs0] d IH]; simpl; intros Hnd Hin; [contradiction|].
  apply NoDup_cons in Hnd as [Hnot Hnd'].
  destruct Hin as [E|Hin].
  - injection E as -> ->. now rewrite String.eqb_refl.
  - destruct (String.eqb_spec k0 k) as [->|Hne].
    + exfalso. apply Hnot. apply list_elem_of_In, in_map_iff. now exists (k, vs).
    + now apply IH.
Qed.

Lemma values_of_cons k m l :
  values_of k (m :: l)
  = if String.eqb (PerformanceMetric.metric_type m) k
    then PerformanceMetric.value m :: values_of k l
    else values_of k l.
Proof.
  unfold values_of. simpl.
  destruct (String.eqb (PerformanceMetric.metric_type m) k); reflexivity.
Qed.

Lemma group_from_spec k l d :
  dict_get k
    (fold_left
       (fun d m =>
          dict_append (PerformanceMetric.metric_type m) (PerformanceMetric.value m) d)
       l d)
  = merged (dict_get k d) (values_of k l)
  /\ (NoDup (map fst d) ->
      NoDup
        (map fst
           (fold_left
              (fun d m =>
                 dict_append (PerformanceMetric.metric_type m) (PerformanceMetric.value m) d)
              l d))).
Proof.
  revert d. induction l as [|m l IH]; intros d; simpl.
  - split; [|auto]. unfold merged, values_of. simpl.
    destruct (dict_get k d); simpl; [now rewrite app_nil_r | reflexivity].
  - destruct (IH (dict_append (PerformanceMetric.metric_type m)
                    (PerformanceMetric.value m) d)) as [IH1 IH2].
    split.
    + rewrite IH1, dict_get_append, values_of_cons.
      destruct (String.eqb_spec (PerformanceMetric.metric_type m) k) as [->|Hne].
      * unfold merged. simpl. rewrite <- app_assoc. simpl.
        destruct (dict_get k d); simpl; destruct (values_of k l); reflexivity.
      * reflexivity.
    + intros Hnd. apply IH2. now apply dict_append_NoDup.
Qed.

(** An entry of [metrics_by_type] holds the values of its metric type. *)
Lemma group_by_type_values window k vs :
  In (k, vs) (group_by_type window) -> vs = values_of k window.
Proof.
  intros Hin. unfold group_by_type in Hin.
  destruct (group_from_spec k window []) as [H1 H2].
  specialize (H2 (NoDup_nil_2 (A:=string))).
  pose proof (dict_get_In k vs _ H2 Hin) as Hget.
  rewrite H1 in Hget. unfold merged, dict_get in Hget. simpl in Hget.
  destruct (values_of k window); [discriminate | now injection Hget as <-].
Qed.


(** The loops, list by list. *)
Lemma for_each_ext {A} (l : list A) (f g : A -> M Datatypes.unit) :
  (forall x, In x l -> forall st, f x st = g x st) ->
  forall st, for_each l f st = for_each l g st.
Proof.
  induction l as [|x l IH]; intros H st; simpl; [reflexivity|].
  unfold bind. rewrite (H x) by now left.
  destruct (g x st) as [[[]|e] st']; [|reflexivity].
  apply IH. intros y Hy. apply H. now right.
Qed.

Lemma for_each_app {A} (l1 l2 : list A) (f : A -> M Datatypes.unit) st :
  for_each (l1 ++ l2) f st = (for_each l1 f >> for_each l2 f) st.
Proof.
  revert st. induction l1 as [|x l1 IH]; intros st; simpl.
  - reflexivity.
  - unfold bind. destruct (f x st) as [[[]|e] st']; [|reflexivity].
    rewrite IH. reflexivity.
Qed.

Lemma for_each_flat_map {A B} (F : A -> list B) (items : list A)
    (h : B -> M Datatypes.unit) st :
  for_each items (fun item => for_each (F item) h) st = for_each (flat_map F items) h st.
Proof.
  revert st. induction items as [|x items IH]; intros st; simpl; [reflexivity|].
  rewrite for_each_app. unfold bind.
  destruct (for_each (F x) h st) as [[[]|e] st']; [apply IH | reflexivity].
Qed.

Lemma for_each_filter {A} (P : A -> bool) (l : list A) (f g : A -> M Datatypes.unit) :
  (forall x, In x l -> forall st, f x st = if P x then g x st else (Normal tt, st)) ->
  forall st, for_each l f st = for_each (List.filter P l) g st.
Proof.
  induction l as [|x l IH]; intros H st; simpl; [reflexivity|].
  unfold bind at 1. rewrite (H x) by now left.
  assert (IH' : forall st, for_each l f st = for_each (List.filter P l) g st).
  { apply IH. intros y Hy. apply H. now right. }
  destruct (P x); simpl.
  - unfold bind. destruct (g x st) as [[[]|e] st']; [apply IH' | reflexivity].
  - apply IH'.
Qed.

Lemma filter_none {A} (P : A -> bool) (l : list A) :
  (forall x, In x l -> P x = false) -> List.filter P l = [].
Proof.
  induction l as [|x l IH]; intros H; simpl; [reflexivity|].
  rewrite (H x) by now left. apply IH. intros y Hy. apply H. now right.
Qed.

Lemma gt_true x y : gt x y = true <-> (y < x)%Q.
Proof.
  unfold gt. rewrite negb_true_iff. split.
  - intros H. apply Qnot_le_lt. intros Hle. apply Qle_bool_iff in Hle. congruence.
  - intros H. destruct (Qle_bool x y) eqn:E; [|reflexivity].
    apply Qle_bool_iff in E. exfalso. exact (Qlt_not_le _ _ H E).
Qed.

Section Detector.

Variable sqrt : Q -> Q.
Hypothesis sqrt_nonneg : forall x, (0 <= sqrt x)%Q.

(** The test of the code, [z_score > 3], is the test of the spec. *)
Lemma z_score_test value mu sigma :
  (0 <= sigma)%Q ->
  gt (z_score value mu sigma) 3
  = negb (Qeq_bool sigma 0) && gt (Qabs (value - mu) / sigma) 3.
Proof.
  intros Hs. unfold z_score.
  destruct (gt sigma 0) eqn:E.
  - apply gt_true in E.
    assert (Hz : Qeq_bool sigma 0 = false).
    { destruct (Qeq_bool sigma 0) eqn:Z; [|reflexivity].
      apply Qeq_bool_iff in Z. rewrite Z in E. discriminate E. }
    rewrite Hz. simpl.
    assert (Hq : (Qabs ((value - mu) / sigma) == Qabs (value - mu) / sigma)%Q).
    { unfold Qdiv. rewrite Qabs_Qmult, Qabs_Qinv.
      rewrite (Qabs_pos sigma) by exact Hs. reflexivity. }
    unfold gt. now rewrite Hq.
  - assert (Hz : Qeq_bool sigma 0 = true).
    { apply Qeq_bool_iff. apply Qle_antisym; [|exact Hs].
      unfold gt in E. apply negb_false_iff in E. now apply Qle_bool_iff. }
    rewrite Hz. reflexivity.
Qed.

Lemma detect_type_spec window k vs :
  vs = values_of k window ->
  forall st,
    detect_type sqrt window (k, vs) st
    = for_each
        (List.filter
           (fun m => String.eqb (PerformanceMetric.metric_type m) k
                     && spec_fires sqrt (values_of k window) (PerformanceMetric.value m))
           window)
        (anomaly_alert sqrt window) st.
Proof.
  intros -> st. unfold detect_type.
  destruct (length (values_of k window) <? 10)%nat eqn:E.
  - rewrite filter_none; [reflexivity|].
    intros m _. unfold spec_fires.
    apply Nat.ltb_lt in E. destruct (Nat.leb_spec 10 (length (values_of k window))); [lia|].
    simpl. apply andb_false_r.
  - apply Nat.ltb_ge in E.
    apply for_each_filter. intros m _ st'. unfold check_anomaly.
    destruct (String.eqb_spec (PerformanceMetric.metric_type m) k) as [Hk|Hk];
      [|reflexivity].
    destruct (Nat.ltb_spec 1 (length (values_of k window))); [|lia].
    rewrite z_score_test by apply sqrt_nonneg.
    unfold spec_fires.
    destruct (Nat.leb_spec 10 (length (values_of k window))); [|lia].
    cbn [andb]. unfold anomaly_alert. rewrite Hk.
    destruct (negb _ && _); reflexivity.
Qed.

Lemma detect_anomalies_spec st :
  detect_anomalies sqrt st
  = for_each (anomalous_samples sqrt (recent st)) (anomaly_alert sqrt (recent st)) st.
Proof.
  unfold anomalous_samples. rewrite <- for_each_flat_map.
  change (detect_anomalies sqrt st)
    with (for_each (group_by_type (recent st)) (detect_type sqrt (recent st)) st).
  apply for_each_ext. intros [k vs] Hin st'.
  apply detect_type_spec. now apply group_by_type_values.
Qed.


End Detector.


Lemma Qsqrt_nonneg (x : Q) : (0 <= Qsqrt x)%Q.
Proof.
  unfold Qsqrt, Qle. simpl. rewrite Z.mul_1_r. apply Z.sqrt_nonneg.
Qed.

Lemma has_open_app alerts new metric_type :
  has_open (alerts ++ new) metric_type
  = has_open alerts metric_type || has_open new metric_type.
Proof. unfold has_open. apply existsb_app. Qed.

(** The alert a request builds depends on the state through the clock
    only. *)
Lemma new_alert_clock metric_type severity threshold current_value message source st0 st :
  Monitor.clock st = Monitor.clock st0 ->
  new_alert metric_type severity threshold current_value message source st
  = new_alert metric_type severity threshold current_value message source st0.
Proof. intros H. unfold new_alert. now rewrite H. Qed.

(** One request of the detector run in [st0], made in a later state [st] of
    the same pass. *)
Lemma anomaly_alert_cases sqrt st0 m st :
  Monitor.clock st = Monitor.clock st0 ->
  (has_open (Monitor.alerts st) (PerformanceMetric.metric_type m) = true
   /\ anomaly_alert sqrt (recent st0) m st = (Raised AttributeError, st))
  \/ (has_open (Monitor.alerts st) (PerformanceMetric.metric_type m) = false
      /\ anomaly_alert sqrt (recent st0) m st
         = (Normal tt, record_alert (anomaly_record sqrt st0 m) st)).
Proof.
  intros Hc. unfold anomaly_alert, anomaly_record.
  rewrite <- (new_alert_clock _ _ _ _ _ _ st0 st Hc). apply create_alert_cases.
Qed.

(** Requests for samples of pairwise distinct metric types, none of which
    has an unresolved alert, all go through: each appends its alert. *)
Lemma anomaly_alerts_fire sqrt st0 fired :
  forall st,
    Monitor.clock st = Monitor.clock st0 ->
    NoDup (map PerformanceMetric.metric_type fired) ->
    Forall (fun m => has_open (Monitor.alerts st) (PerformanceMetric.metric_type m) = false)
      fired ->
    exists st',
      for_each fired (anomaly_alert sqrt (recent st0)) st = (Normal tt, st')
      /\ Monitor.alerts st' = Monitor.alerts st ++ map (anomaly_record sqrt st0) fired
      /\ Monitor.clock st' = Monitor.clock st.
Proof.
  induction fired as [|m fired IH]; intros st Hc Hnd Hall.
  - exists st. simpl. rewrite app_nil_r. auto.
  - apply NoDup_cons in Hnd as [Hm Hnd].
    inversion Hall as [|? ? Ho Hall']; subst.
    destruct (anomaly_alert_cases sqrt st0 m st Hc) as [[Ho' _]|[_ E]]; [congruence|].
    set (st1 := record_alert (anomaly_record sqrt st0 m) st) in *.
    pose proof (record_alert_frame (anomaly_record sqrt st0 m) st) as (_ & _ & _ & Hc1).
    fold st1 in Hc1.
    assert (Ha1 : Monitor.alerts st1 = Monitor.alerts st ++ [anomaly_record sqrt st0 m])
      by apply record_alert_alerts.
    destruct (IH st1) as (st' & E' & Ha' & Hc').
    + now rewrite Hc1.
    + exact Hnd.
    + apply List.Forall_forall. intros y Hy.
      rewrite List.Forall_forall in Hall'.
      rewrite Ha1, has_open_app, (Hall' y Hy). unfold has_open. simpl.
      unfold anomaly_record. rewrite is_open_new_alert, orb_false_r.
      destruct (String.eqb_spec (PerformanceMetric.metric_type m)
                  (PerformanceMetric.metric_type y)) as [Heq|]; [|reflexivity].
      exfalso. apply Hm. rewrite Heq. apply list_elem_of_In, in_map_iff. now exists y.
    + exists st'. split; [|split].
      * simpl. unfold bind. rewrite E. exact E'.
      * rewrite Ha', Ha1, <- app_assoc. reflexivity.
      * now rewrite Hc', Hc1.
Qed.

(** Whatever a loop of requests appends is the alert of one of its
    samples, built as in the state [st0] the pass started in. *)
Lemma anomaly_alerts_records sqrt st0 samples :
  preserves
    (grown_by (fun a => exists m, In m samples /\ a = anomaly_record sqrt st0 m) st0)
    (for_each samples (anomaly_alert sqrt (recent st0))).
Proof.
  apply preserves_for_each. intros m Hm st H. unfold anomaly_alert.
  apply create_alert_grown_by; [exact H|].
  exists m. split; [exact Hm|].
  destruct H as (_ & _ & _ & Hc & _). unfold anomaly_record. now apply new_alert_clock.
Qed.

Lemma for_each_extends {A} (xs : list A) (req : A -> M Datatypes.unit) :
  (forall x st, exists severity threshold current_value message source metric_type,
      req x st = create_alert metric_type severity threshold current_value message source st) ->
  forall st, extends (Monitor.alerts st) (Monitor.alerts (exec (for_each xs req) st)).
Proof.
  intros Hreq st.
  apply (preserves_for_each (fun s => extends (Monitor.alerts st) (Monitor.alerts s))).
  - intros x _ s H. destruct (Hreq x s) as (sev & thr & cur & msg & src & mt & E).
    unfold exec. rewrite E. now apply create_alert_extends.
  - exists []. now rewrite app_nil_r.
Qed.

(** What a pass of the detector appends: the alert of each sample of a
    clash-free prefix [fired] of the anomalous samples and, after these,
    alerts of anomalous samples only. *)
Lemma detect_anomalies_appends sqrt st fired rest :
  (forall x, (0 <= sqrt x)%Q) ->
  anomalous_samples sqrt (recent st) = fired ++ rest ->
  NoDup (map PerformanceMetric.metric_type fired) ->
  Forall (fun m => has_open (Monitor.alerts st) (PerformanceMetric.metric_type m) = false)
    fired ->
  exists more,
    Monitor.alerts (exec (detect_anomalies sqrt) st)
    = Monitor.alerts st ++ map (anomaly_record sqrt st) fired ++ more
    /\ Forall (fun a => exists m, In m (anomalous_samples sqrt (recent st))
                                  /\ a = anomaly_record sqrt st m) more.
Proof.
  intros Hsqrt Hsplit Hnd Hall.
  pose proof (anomaly_alerts_records sqrt st (anomalous_samples sqrt (recent st)) st
                (grown_by_refl _ st)) as (_ & _ & _ & _ & new & Hnew & Hgood).
  unfold exec in *. rewrite (detect_anomalies_spec sqrt Hsqrt).
  destruct (anomaly_alerts_fire sqrt st fired st eq_refl Hnd Hall) as (st1 & E1 & Ha1 & _).
  assert (Hrun : for_each (anomalous_samples sqrt (recent st))
                   (anomaly_alert sqrt (recent st)) st
                 = for_each rest (anomaly_alert sqrt (recent st)) st1).
  { rewrite Hsplit, for_each_app. unfold bind. now rewrite E1. }
  destruct (for_each_extends rest (anomaly_alert sqrt (recent st))) with (st := st1)
    as [more Hmore].
  { intros m s. unfold anomaly_alert. do 6 eexists. reflexivity. }
  unfold exec in Hmore. rewrite <- Hrun, Ha1, <- app_assoc in Hmore.
  exists more. split; [exact Hmore|].
  rewrite Hmore in Hnew. apply app_inv_head in Hnew. subst new.
  apply Forall_app in Hgood as [_ Hgood]. exact Hgood.
Qed.



(** The detector does fire: in the window of [st_outlier] the sample of 16
    is the one anomalous sample, and one alert is appended for it. *)
Lemma anomaly_fires_example :
  map PerformanceMetric.value (anomalous_samples Qsqrt (recent st_outlier)) = [16%Q]
  /\ map PerformanceAlert.alert_id
       (Monitor.alerts (exec (detect_anomalies Qsqrt) st_outlier))
     = ["cpu_usage_system_1700000480"].
Proof. split; vm_compute; reflexivity. Qed.


(** C5, as the code has it. Every alert the trend predictor appends is
    created under the source "prediction". With a square root that is never
    negative, every alert the anomaly detector appends is the alert of a
    sample found anomalous, created under the source of that very sample
    and not under a source of its own. Both only append to the alert list,
    so neither resolves or changes an existing alert. *)
Theorem analytics_alert_sources :
  (forall st : Monitor.t,
      exists new,
        Monitor.alerts (exec generate_predictive_alerts st) = Monitor.alerts st ++ new
        /\ Forall (fun a =>
                     String.prefix
                       (key_prefix (PerformanceAlert.metric_type a) "prediction")
                       (PerformanceAlert.alert_id a) = true)
             new)
  /\ (forall (sqrt : Q -> Q) (st : Monitor.t),
         (forall x, (0 <= sqrt x)%Q) ->
         exists new,
           Monitor.alerts (exec (detect_anomalies sqrt) st) = Monitor.alerts st ++ new
           /\ Forall (fun a =>
                        exists m,
                          In m (anomalous_samples sqrt (recent st))
                          /\ a = anomaly_record sqrt st m
                          /\ String.prefix
                               (key_prefix (PerformanceMetric.metric_type m)
                                  (PerformanceMetric.source m))
                               (PerformanceAlert.alert_id a) = true)
                new).
Proof.
  split.
  - intros st.
    destruct (generate_predictive_alerts_grown st) as (_ & _ & _ & _ & new & H & Hall).
    exists new. split; [exact H|].
    apply (List.Forall_impl _ (P := predicted_in st)); [|exact Hall].
    intros a (_ & _ & H3). exact H3.
  - intros sqrt st Hsqrt.
    destruct (detect_anomalies_appends sqrt st [] (anomalous_samples sqrt (recent st)))
      as (new & H & Hall); [exact Hsqrt|reflexivity|constructor|constructor|].
    exists new. split; [exact H|].
    revert Hall. apply List.Forall_impl.
    intros a (m & Hm & ->). exists m. split; [exact Hm|]. split; [reflexivity|].
    unfold anomaly_record. apply new_alert_key.
Qed.

(** In [st_outlier] the detector appends one alert, under the source
    "system" of the anomalous sample. *)
Lemma analytics_alert_sources_witness :
  exists new,
    Monitor.alerts (exec (detect_anomalies Qsqrt) st_outlier)
    = Monitor.alerts st_outlier ++ new
    /\ length new = 1%nat
    /\ Forall (fun a =>
                 exists m,
                   In m (anomalous_samples Qsqrt (recent st_outlier))
                   /\ a = anomaly_record Qsqrt st_outlier m
                   /\ String.prefix
                        (key_prefix (PerformanceMetric.metric_type m)
                           (PerformanceMetric.source m))
                        (PerformanceAlert.alert_id a) = true)
         new.
Proof.
  destruct analytics_alert_sources as [_ H].
  destruct (H Qsqrt st_outlier Qsqrt_nonneg) as (new & H1 & H2).
  exists new. split; [exact H1|]. split; [|exact H2].
  apply (f_equal (@length _)) in H1. rewrite length_app in H1.
  vm_compute in H1. now symmetry.
Defined.

(** C5 fails as stated. The alert the anomaly detector creates in
    [st_outlier] has the key (cpu_usage, system), not (cpu_usage, anomaly),
    and while it is open a threshold sample of 95 for (cpu_usage, system)
    creates no critical alert; likewise, while the prediction alert of
    [st_falling] is open, the same threshold sample creates no alert. *)
Lemma synthetic_source_counterexample :
  let st1 := exec (detect_anomalies Qsqrt) st_outlier in
  let st2 := exec generate_predictive_alerts st_falling in
  map PerformanceAlert.alert_id (Monitor.alerts st1) = ["cpu_usage_system_1700000480"]
  /\ open_count "cpu_usage" "anomaly" (Monitor.alerts st1) = 0%nat
  /\ open_count "cpu_usage" "system" (Monitor.alerts st1) = 1%nat
  /\ result (check_alerts "cpu_usage" 95%Q "system") st1 = Raised AttributeError
  /\ map PerformanceAlert.severity
       (Monitor.alerts (exec (check_alerts "cpu_usage" 95%Q "system") st1)) = ["warning"]
  /\ map PerformanceAlert.alert_id (Monitor.alerts st2)
     = ["cpu_usage_prediction_1700036000"]
  /\ result (check_alerts "cpu_usage" 95%Q "system") st2 = Raised AttributeError
  /\ map PerformanceAlert.severity
       (Monitor.alerts (exec (check_alerts "cpu_usage" 95%Q "system") st2)) = ["warning"].
Proof. vm_compute. repeat split; reflexivity. Qed.

(** ** Properties of the whole state that every step keeps *)

Section RunInvariant.

(** [J] is kept by [create_alert] and [add_metric], and does not read the
    log or the clock. *)
Variable J : Monitor.t -> Prop.

Hypothesis J_create_alert :
  forall metric_type severity threshold current_value message source,
    preserves J
      (create_alert metric_type severity threshold current_value message source).

Hypothesis J_add_metric :
  forall metric_type value unit source metadata,
    preserves J (add_metric metric_type value unit source metadata).

Hypothesis J_set_clock : forall st c, J st -> J (set_clock c st).

Hypothesis J_set_log : forall st l, J st -> J (set_log l st).

Variable sqrt : Q -> Q.

Lemma K_sleep n : preserves J (sleep n).
Proof. apply preserves_modify. intros st H. now apply J_set_clock. Qed.

Lemma K_logging r : preserves J (logging r).
Proof. apply preserves_modify. intros st H. now apply J_set_log. Qed.

Lemma K_check_alerts metric_type value source :
  preserves J (check_alerts metric_type value source).
Proof.
  unfold check_alerts. repeat preserves_step; apply J_create_alert.
Qed.

Lemma K_check_endpoint endpoint http : preserves J (check_endpoint endpoint http).
Proof.
  unfold check_endpoint.
  repeat preserves_step;
    first [apply J_add_metric | apply K_check_alerts | apply J_create_alert
          | apply K_logging].
Qed.

Lemma K_monitor_web_endpoints http : preserves J (monitor_web_endpoints http).
Proof.
  unfold monitor_web_endpoints.
  repeat preserves_step; first [apply K_check_endpoint | apply K_sleep | apply K_logging].
Qed.

Lemma K_monitor_system_metrics cpu mem disk sent recv :
  preserves J (monitor_system_metrics cpu mem disk sent recv).
Proof.
  unfold monitor_system_metrics.
  repeat preserves_step;
    first [apply J_add_metric | apply K_check_alerts | apply K_sleep | apply K_logging].
Qed.

Lemma K_detect_anomalies : preserves J (detect_anomalies sqrt).
Proof.
  unfold detect_anomalies, datetime_now.
  repeat preserves_step. unfold detect_type.
  repeat preserves_step. unfold check_anomaly.
  repeat preserves_step; apply J_create_alert.
Qed.

Lemma K_generate_predictive_alerts : preserves J generate_predictive_alerts.
Proof.
  unfold generate_predictive_alerts.
  repeat preserves_step. unfold predict_metric, get_metric_history, datetime_now.
  repeat preserves_step; apply J_create_alert.
Qed.

Lemma K_ai_analytics_loop : preserves J (ai_analytics_loop sqrt).
Proof.
  unfold ai_analytics_loop.
  repeat preserves_step;
    first [apply K_detect_anomalies | apply K_generate_predictive_alerts
          | apply K_sleep | apply K_logging].
Qed.

Lemma K_step ev : preserves J (step sqrt ev).
Proof.
  destruct ev; simpl.
  - apply preserves_modify. intros st H. now apply J_set_clock.
  - apply K_monitor_system_metrics.
  - apply K_monitor_web_endpoints.
  - apply K_ai_analytics_loop.
  - apply preserves_bind; [apply J_add_metric | intros _; apply K_check_alerts].
  - apply J_create_alert.
Qed.

Lemma K_run evs st : J st -> J (run sqrt evs st).
Proof.
  revert st. induction evs as [|ev evs IH]; intros st H; simpl.
  - exact H.
  - apply IH. apply (K_step ev st H).
Qed.

End RunInvariant.

(** ** Alerts over the lifetime of the monitor *)

Lemma has_open_false_types alerts metric_type :
  Forall unresolved alerts ->
  has_open alerts metric_type = false ->
  ~ In metric_type (map PerformanceAlert.metric_type alerts).
Proof.
  intros Hall Ho Hin. apply in_map_iff in Hin as (a & Ht & Ha).
  assert (has_open alerts metric_type = true); [|congruence].
  apply has_open_true. exists a. split; [exact Ha|]. split; [|exact Ht].
  rewrite List.Forall_forall in Hall. apply (Hall a Ha).
Qed.

Lemma create_alert_distinct_types metric_type severity threshold current_value message
    source :
  preserves
    (fun st => Forall unresolved (Monitor.alerts st)
               /\ NoDup (map PerformanceAlert.metric_type (Monitor.alerts st)))
    (create_alert metric_type severity threshold current_value message source).
Proof.
  intros st [Hall Hnd]. unfold exec.
  destruct (create_alert_cases metric_type severity threshold current_value message
              source st) as [[Ho E]|[Ho E]]; rewrite E; simpl; [auto|].
  rewrite record_alert_alerts. split.
  - apply Forall_app. split; [exact Hall|]. constructor; [|constructor].
    split; reflexivity.
  - rewrite map_app. apply NoDup_app. split; [exact Hnd|]. split.
    + intros x Hx Hx'. simpl in Hx'. apply list_elem_of_singleton in Hx'. subst x.
      apply list_elem_of_In in Hx.
      exact (has_open_false_types _ _ Hall Ho Hx).
    + apply NoDup_singleton.
Qed.

Lemma alerts_distinct_unresolved (sqrt : Q -> Q) cfg now evs :
  Forall unresolved (Monitor.alerts (run sqrt evs (init cfg now)))
  /\ NoDup (map PerformanceAlert.metric_type (Monitor.alerts (run sqrt evs (init cfg now)))).
Proof.
  apply (I_run (fun alerts => Forall unresolved alerts
                              /\ NoDup (map PerformanceAlert.metric_type alerts))).
  - intros. apply create_alert_distinct_types.
  - simpl. split; constructor.
Qed.

(** X1. No alert is ever resolved: after every run from the initial state,
    every alert in the list has [resolved = False] and no [resolved_at]. *)
Theorem alerts_never_resolved :
  forall (sqrt : Q -> Q) (cfg : Config.t) (now : Z) (evs : list event),
    Forall (fun a => PerformanceAlert.resolved a = false
                     /\ PerformanceAlert.resolved_at a = None)
      (Monitor.alerts (run sqrt evs (init cfg now))).
Proof. intros sqrt cfg now evs. apply (alerts_distinct_unresolved sqrt cfg now evs). Qed.

(** X2. Each metric type alerts at most once in the lifetime of the
    monitor: after every run from the initial state the alerts in the list
    have pairwise distinct metric types. *)
Theorem one_alert_per_metric_type :
  forall (sqrt : Q -> Q) (cfg : Config.t) (now : Z) (evs : list event),
    NoDup (map PerformanceAlert.metric_type
             (Monitor.alerts (run sqrt evs (init cfg now)))).
Proof. intros sqrt cfg now evs. apply (alerts_distinct_unresolved sqrt cfg now evs). Qed.

(** ** The alerts table and the notification channels *)

Lemma record_alert_db_alerts alert st :
  Monitor.db_alerts (record_alert alert st)
  = List.filter
      (fun row => negb (String.eqb (PerformanceAlert.alert_id row)
                                   (PerformanceAlert.alert_id alert)))
      (Monitor.db_alerts st) ++ [alert].
Proof.
  unfold record_alert. run_M.
  destruct (Config.email_enabled (Monitor.config st)),
           (Config.slack_enabled (Monitor.config st)),
           (Config.webhook_enabled (Monitor.config st)); reflexivity.
Qed.

Lemma record_alert_outbox alert st :
  Monitor.outbox (record_alert alert st)
  = Monitor.outbox st
    ++ (if Config.email_enabled (Monitor.config st) then [(Email, alert)] else [])
    ++ (if Config.slack_enabled (Monitor.config st) then [(Slack, alert)] else [])
    ++ (if Config.webhook_enabled (Monitor.config st) then [(Webhook, alert)] else []).
Proof.
  unfold record_alert. run_M.
  destruct (Config.email_enabled (Monitor.config st)),
           (Config.slack_enabled (Monitor.config st)),
           (Config.webhook_enabled (Monitor.config st)); simpl;
    rewrite <- ?app_assoc, ?app_nil_r; reflexivity.
Qed.

Lemma NoDup_map_filter {A B} (f : A -> B) (P : A -> bool) (l : list A) :
  NoDup (map f l) -> NoDup (map f (List.filter P l)).
Proof.
  induction l as [|x l IH]; simpl; intros H; [exact H|].
  apply NoDup_cons in H as [Hx Hl].
  destruct (P x); simpl; [|now apply IH].
  apply NoDup_cons. split; [|now apply IH].
  intros Hin. apply Hx. apply list_elem_of_In in Hin. apply list_elem_of_In.
  apply in_map_iff in Hin as (y & Hy & Hin). apply filter_In in Hin as [Hin _].
  apply in_map_iff. now exists y.
Qed.

Lemma create_alert_table_consistent st0 metric_type severity threshold current_value
    message source :
  preserves
    (fun st => exists new,
         Monitor.alerts st = Monitor.alerts st0 ++ new
         /\ table_consistent (Monitor.db_alerts st0) new (Monitor.db_alerts st))
    (create_alert metric_type severity threshold current_value message source).
Proof.
  intros st (new & Hnew & Hnd & Hrows). unfold exec.
  destruct (create_alert_cases metric_type severity threshold current_value message
              source st) as [[Ho E]|[Ho E]]; rewrite E; simpl.
  { exists new. repeat split; assumption. }
  set (a := new_alert metric_type severity threshold current_value message source st).
  exists (new ++ [a]).
  rewrite record_alert_alerts, record_alert_db_alerts, Hnew, <- app_assoc.
  split; [reflexivity|]. split.
  - rewrite map_app. apply NoDup_app. split; [now apply NoDup_map_filter|]. split.
    + intros x Hx Hx'. simpl in Hx'. apply list_elem_of_singleton in Hx'. subst x.
      apply list_elem_of_In, in_map_iff in Hx as (row & Hid & Hrow).
      apply filter_In in Hrow as [_ Hne]. rewrite Hid, String.eqb_refl in Hne.
      discriminate.
    + apply NoDup_singleton.
  - apply Forall_app. split.
    + apply List.Forall_forall. intros row Hrow. apply filter_In in Hrow as [Hrow _].
      rewrite List.Forall_forall in Hrows.
      destruct (Hrows row Hrow) as [H|H]; [now left|right].
      rewrite map_app. apply in_app_iff. now left.
    + constructor; [|constructor]. right. rewrite map_app. apply in_app_iff. right.
      now left.
Qed.

(** X3. From any state in which the rows of the alerts table have pairwise
    distinct [alert_id]s, after every run the rows still have pairwise
    distinct [alert_id]s, and each of them is a row that was there before
    or carries the [alert_id] of an alert appended to the list during the
    run. *)
Theorem alerts_table_consistent :
  forall (sqrt : Q -> Q) (evs : list event) (st : Monitor.t),
    NoDup (map PerformanceAlert.alert_id (Monitor.db_alerts st)) ->
    exists new,
      Monitor.alerts (run sqrt evs st) = Monitor.alerts st ++ new
      /\ NoDup (map PerformanceAlert.alert_id (Monitor.db_alerts (run sqrt evs st)))
      /\ Forall (fun row => In row (Monitor.db_alerts st)
                            \/ In (PerformanceAlert.alert_id row)
                                 (map PerformanceAlert.alert_id new))
           (Monitor.db_alerts (run sqrt evs st)).
Proof.
  intros sqrt evs st Hnd.
  apply (K_run (fun s => exists new,
                    Monitor.alerts s = Monitor.alerts st ++ new
                    /\ table_consistent (Monitor.db_alerts st) new (Monitor.db_alerts s))).
  - intros. apply create_alert_table_consistent.
  - intros mt v u src md st0 H. unfold exec. rewrite add_metric_spec. exact H.
  - intros st0 c H. exact H.
  - intros st0 l H. exact H.
  - exists []. rewrite app_nil_r. split; [reflexivity|]. split; [exact Hnd|].
    apply List.Forall_forall. intros row Hrow. now left.
Qed.

Lemma alerts_table_consistent_witness :
  let st := st_warning_open in
  let evs := [Sample "memory_usage" 95%Q "percent" "system"] in
  exists new,
    Monitor.alerts (run Qsqrt evs st) = Monitor.alerts st ++ new
    /\ NoDup (map PerformanceAlert.alert_id (Monitor.db_alerts (run Qsqrt evs st)))
    /\ Forall (fun row => In row (Monitor.db_alerts st)
                          \/ In (PerformanceAlert.alert_id row)
                               (map PerformanceAlert.alert_id new))
         (Monitor.db_alerts (run Qsqrt evs st)).
Proof.
  apply (alerts_table_consistent Qsqrt [Sample "memory_usage" 95%Q "percent" "system"]
           st_warning_open).
  vm_compute. apply NoDup_singleton.
Defined.

Lemma sent_on_app c o1 o2 : sent_on c (o1 ++ o2) = sent_on c o1 ++ sent_on c o2.
Proof. unfold sent_on. now rewrite List.filter_app, map_app. Qed.

Lemma create_alert_outbox_consistent cfg metric_type severity threshold current_value
    message source :
  preserves (outbox_consistent cfg)
    (create_alert metric_type severity threshold current_value message source).
Proof.
  intros st (Hcfg & Hoff & Hin). unfold exec.
  destruct (create_alert_cases metric_type severity threshold current_value message
              source st) as [[Ho E]|[Ho E]]; rewrite E; simpl;
    [repeat split; assumption|].
  set (a := new_alert metric_type severity threshold current_value message source st).
  pose proof (record_alert_frame a st) as (F1 & _).
  unfold outbox_consistent.
  rewrite F1, record_alert_outbox, record_alert_alerts, Hcfg.
  split; [reflexivity|]. split.
  - intros c Hc. rewrite !sent_on_app, (Hoff c Hc).
    destruct c; simpl in Hc; rewrite Hc; simpl;
      destruct (Config.email_enabled cfg), (Config.slack_enabled cfg),
               (Config.webhook_enabled cfg); try discriminate; reflexivity.
  - intros c x Hx. apply in_app_iff. apply in_app_iff in Hx as [Hx|Hx].
    + left. exact (Hin c x Hx).
    + right.
      destruct (Config.email_enabled cfg), (Config.slack_enabled cfg),
               (Config.webhook_enabled cfg); simpl in Hx;
        repeat (destruct Hx as [Hx|Hx]; [injection Hx as _ <-; now left|]);
        contradiction.
Qed.

(** X4. After every run from the initial state, nothing has been sent on a
    notification channel whose [enabled] flag is off, and every
    notification that was sent, on whatever channel, carries an alert of
    the alert list. *)
Theorem notifications_respect_flags :
  forall (sqrt : Q -> Q) (cfg : Config.t) (now : Z) (evs : list event),
    let st := run sqrt evs (init cfg now) in
    (forall c : Channel, enabled cfg c = false -> sent_on c (Monitor.outbox st) = [])
    /\ Forall (fun p => In (snd p) (Monitor.alerts st)) (Monitor.outbox st).
Proof.
  intros sqrt cfg now evs st.
  assert (H : outbox_consistent cfg st).
  { apply (K_run (outbox_consistent cfg)).
    - intros. apply create_alert_outbox_consistent.
    - intros mt v u src md st0 H. unfold exec. rewrite add_metric_spec. exact H.
    - intros st0 c0 H. exact H.
    - intros st0 l H. exact H.
    - repeat split. intros c0 a []. }
  destruct H as (_ & H1 & H2). split; [exact H1|].
  apply List.Forall_forall. intros [c0 a] Hin. exact (H2 c0 a Hin).
Qed.

(** With e-mail switched on and the two other channels off, a critical
    sample is notified by e-mail only. *)
Lemma notifications_respect_flags_witness :
  let st := run Qsqrt [Sample "cpu_usage" 95%Q "percent" "system"]
              (init config_email_only epoch) in
  sent_on Slack (Monitor.outbox st) = []
  /\ sent_on Webhook (Monitor.outbox st) = []
  /\ length (sent_on Email (Monitor.outbox st)) = 1%nat
  /\ Forall (fun p => In (snd p) (Monitor.alerts st)) (Monitor.outbox st).
Proof.
  destruct (notifications_respect_flags Qsqrt config_email_only epoch
              [Sample "cpu_usage" 95%Q "percent" "system"]) as [Hoff Hin].
  split; [apply (Hoff Slack); reflexivity|].
  split; [apply (Hoff Webhook); reflexivity|].
  split; [reflexivity | exact Hin].
Defined.

(** ** The buffer and the tables over a run *)

Lemma create_alert_frame metric_type severity threshold current_value message source st :
  let st' :=
    exec (create_alert metric_type severity threshold current_value message source) st in
  Monitor.config st' = Monitor.config st
  /\ Monitor.metrics_buffer st' = Monitor.metrics_buffer st
  /\ Monitor.db_metrics st' = Monitor.db_metrics st
  /\ Monitor.clock st' = Monitor.clock st.
Proof.
  cbv zeta. unfold exec.
  destruct (create_alert_cases metric_type severity threshold current_value message
              source st) as [[_ E]|[_ E]]; rewrite E; simpl.
  - auto.
  - apply record_alert_frame.
Qed.

Lemma add_metric_bounded cfg metric_type value unit source metadata :
  (1 <= Config.buffer_size cfg)%Z ->
  preserves
    (fun st => Monitor.config st = cfg
               /\ (Z.of_nat (length (Monitor.metrics_buffer st)) <= Config.buffer_size cfg)%Z)
    (add_metric metric_type value unit source metadata).
Proof.
  intros Hc st [Hcfg Hlen]. unfold exec. rewrite add_metric_spec. cbv zeta. simpl.
  split; [exact Hcfg|]. rewrite Hcfg.
  set (m := PerformanceMetric.mk (Monitor.clock st) metric_type value unit source metadata).
  destruct (Z.gtb_spec (Z.of_nat (length (Monitor.metrics_buffer st ++ [m])))
              (Config.buffer_size cfg)) as [Hgt|Hle]; [|exact Hle].
  rewrite slice_from_last by lia. rewrite length_most_recent. lia.
Qed.

(** X6. With a configured buffer size of at least 1, the metrics buffer
    never holds more samples than that size, after every run from the
    initial state. *)
Theorem buffer_never_exceeds_size :
  forall (sqrt : Q -> Q) (cfg : Config.t) (now : Z) (evs : list event),
    (1 <= Config.buffer_size cfg)%Z ->
    (Z.of_nat (length (Monitor.metrics_buffer (run sqrt evs (init cfg now))))
     <= Config.buffer_size cfg)%Z.
Proof.
  intros sqrt cfg now evs Hc.
  apply (K_run (fun st => Monitor.config st = cfg
                          /\ (Z.of_nat (length (Monitor.metrics_buffer st))
                              <= Config.buffer_size cfg)%Z)).
  - intros mt sev thr cur msg src st [H1 H2].
    destruct (create_alert_frame mt sev thr cur msg src st) as (F1 & F2 & _).
    now rewrite F1, F2.
  - intros. now apply add_metric_bounded.
  - intros st c H. exact H.
  - intros st l H. exact H.
  - simpl. split; [reflexivity | lia].
Qed.

Lemma buffer_never_exceeds_size_witness :
  (Z.of_nat (length (Monitor.metrics_buffer
                       (run Qsqrt [SystemTick 10 20 30 40 50; SystemTick 11 21 31 41 51]
                          (init (config_with_buffer_size 3) epoch))))
   <= 3)%Z.
Proof.
  apply (buffer_never_exceeds_size Qsqrt (config_with_buffer_size 3) epoch
           [SystemTick 10 20 30 40 50; SystemTick 11 21 31 41 51]).
  vm_compute. discriminate.
Defined.

(** X7. Nothing is ever deleted or rewritten: from any state, after any
    run, the metrics table and the alert list are their former contents
    with new entries appended. *)
Theorem records_only_grow :
  forall (sqrt : Q -> Q) (evs : list event) (st : Monitor.t),
    (exists new, Monitor.db_metrics (run sqrt evs st) = Monitor.db_metrics st ++ new)
    /\ (exists new, Monitor.alerts (run sqrt evs st) = Monitor.alerts st ++ new).
Proof.
  intros sqrt evs st. split.
  - apply (K_run (fun s => exists new, Monitor.db_metrics s = Monitor.db_metrics st ++ new)).
    + intros mt sev thr cur msg src s H.
      destruct (create_alert_frame mt sev thr cur msg src s) as (_ & _ & F3 & _).
      now rewrite F3.
    + intros mt v u src md s [new H]. unfold exec. rewrite add_metric_spec. cbv zeta.
      simpl. rewrite H, <- app_assoc. now eexists.
    + intros s c H. exact H.
    + intros s l H. exact H.
    + exists []. now rewrite app_nil_r.
  - apply (I_run (extends (Monitor.alerts st))).
    + intros. apply create_alert_extends.
    + exists []. now rewrite app_nil_r.
Qed.

(** ** The metric history *)






(** ** Which exceptions escape *)

Lemma create_alert_result metric_type severity threshold current_value message source st :
  result (create_alert metric_type severity threshold current_value message source) st
  = if has_open (Monitor.alerts st) metric_type then Raised AttributeError else Normal tt.
Proof.
  unfold result.
  destruct (create_alert_cases metric_type severity threshold current_value message
              source st) as [[Ho E]|[Ho E]]; rewrite E, Ho; reflexivity.
Qed.

(** [check_alerts] either does nothing or is one call of [create_alert]. *)
Lemma check_alerts_request metric_type value source st :
  check_alerts metric_type value source st = (Normal tt, st)
  \/ exists severity threshold message,
       check_alerts metric_type value source st
       = create_alert metric_type severity threshold value message source st.
Proof.
  unfold check_alerts, bind, gets.
  destruct (Config.alerts (Monitor.config st) !! metric_type) as [th|]; [|now left].
  destruct (critical th) as [c|], (warning th) as [w|];
    repeat match goal with
           | |- context [if geq ?v ?b then _ else _] => destruct (geq v b)
           end;
    first [now left | right; do 3 eexists; reflexivity].
Qed.

Lemma roa_ret {A} (a : A) : raises_only_AttributeError (ret a).
Proof. intros st e H. discriminate H. Qed.

Lemma roa_modify f : raises_only_AttributeError (modify f).
Proof. intros st e H. discriminate H. Qed.

Lemma roa_bind {A B} (m : M A) (k : A -> M B) :
  raises_only_AttributeError m -> (forall a, raises_only_AttributeError (k a)) ->
  raises_only_AttributeError (bind m k).
Proof.
  intros Hm Hk st e. unfold result, bind. specialize (Hm st). unfold result in Hm.
  destruct (m st) as [[a|e'] st']; simpl in *.
  - apply (Hk a st' e).
  - intros H. injection H as <-. now apply Hm.
Qed.

Lemma roa_create_alert metric_type severity threshold current_value message source :
  raises_only_AttributeError
    (create_alert metric_type severity threshold current_value message source).
Proof.
  intros st e. rewrite create_alert_result.
  destruct (has_open _ _); intros H; [now injection H as <- | discriminate H].
Qed.

Lemma roa_add_metric metric_type value unit source metadata :
  raises_only_AttributeError (add_metric metric_type value unit source metadata).
Proof. intros st e. unfold result. rewrite add_metric_spec. intros H. discriminate H. Qed.

Lemma roa_check_alerts metric_type value source :
  raises_only_AttributeError (check_alerts metric_type value source).
Proof.
  intros st e. unfold result.
  destruct (check_alerts_request metric_type value source st)
    as [E|(sev & thr & msg & E)]; rewrite E.
  - intros H. discriminate H.
  - apply roa_create_alert.
Qed.

Lemma check_endpoint_raises_cases st endpoint http e :
  result (check_endpoint endpoint http) st = Raised e
  <-> http = Failed Timeout /\ e = AttributeError
      /\ has_open (Monitor.alerts st) "availability" = true.
Proof.
  destruct http as [code rt|e0].
  - split; [|intros (H & _); discriminate H].
    unfold check_endpoint.
    match goal with |- context [try_catch ?b ?h] => set (body := b) end.
    assert (Hb : raises_only_AttributeError body).
    { unfold body.
      apply roa_bind; [apply roa_add_metric | intros _].
      apply roa_bind; [apply roa_add_metric | intros _].
      apply roa_bind; [|intros _; apply roa_check_alerts].
      destruct (_ >=? _)%Z; [apply roa_create_alert | apply roa_ret]. }
    specialize (Hb st). unfold result in Hb. unfold result, try_catch.
    destruct (body st) as [[[]|e'] st']; simpl; [intros H; discriminate H|].
    rewrite (Hb e' eq_refl). simpl. intros H. discriminate H.
  - unfold check_endpoint, result, try_catch, raise. destruct e0; simpl.
    + split; [intros H; discriminate H | intros (H & _); discriminate H].
    + fold (result (create_alert "availability" "critical" 100 0
                      (MsgEndpointTimeout (name endpoint) (default 10%Q (timeout endpoint)))
                      "system") st).
      rewrite create_alert_result.
      destruct (has_open (Monitor.alerts st) "availability"); split.
      * intros H. injection H as <-. auto.
      * intros (_ & -> & _). reflexivity.
      * intros H. discriminate H.
      * intros (_ & _ & H). discriminate H.
    + split; [intros H; discriminate H | intros (H & _); discriminate H].
Qed.

(** X10. [check_endpoint] lets an exception escape in one case only: the
    request timed out while an unresolved availability alert is in the
    list, and then it is the AttributeError of [create_alert]. A response
    of any status and every other failure make it return normally. *)
Theorem check_endpoint_raises_iff :
  forall (st : Monitor.t) (endpoint : Endpoint) (http : http_outcome) (e : exn),
    result (check_endpoint endpoint http) st = Raised e
    <-> http = Failed Timeout /\ e = AttributeError
        /\ has_open (Monitor.alerts st) "availability" = true.
Proof. intros. apply check_endpoint_raises_cases. Qed.

(** ** The collectors *)

Lemma check_alerts_frame metric_type value source st :
  let st' := exec (check_alerts metric_type value source) st in
  Monitor.config st' = Monitor.config st
  /\ Monitor.metrics_buffer st' = Monitor.metrics_buffer st
  /\ Monitor.db_metrics st' = Monitor.db_metrics st
  /\ Monitor.clock st' = Monitor.clock st.
Proof.
  cbv zeta. unfold exec.
  destruct (check_alerts_request metric_type value source st)
    as [E|(sev & thr & msg & E)]; rewrite E.
  - simpl. auto.
  - apply create_alert_frame.
Qed.

(** X11. A request that gets a response, whatever its status, stores
    exactly two samples in the metrics table, the response time and then
    the availability (100 below status 400, else 0), even when the alert
    calls that follow raise. *)
Theorem check_endpoint_response_samples :
  forall (st : Monitor.t) (endpoint : Endpoint) (code : Z) (response_time : Q),
    Monitor.db_metrics (exec (check_endpoint endpoint (Responded code response_time)) st)
    = Monitor.db_metrics st
      ++ [response_time_sample (Monitor.clock st) endpoint code response_time;
          availability_sample (Monitor.clock st) endpoint code].
Proof.
  intros st endpoint code response_time.
  set (D := Monitor.db_metrics st
            ++ [response_time_sample (Monitor.clock st) endpoint code response_time;
                availability_sample (Monitor.clock st) endpoint code]).
  unfold check_endpoint, exec, try_catch. unfold bind at 1.
  rewrite add_metric_spec. cbv zeta. unfold bind at 1. rewrite add_metric_spec. cbv zeta.
  match goal with
  | |- context [bind ?m ?k ?s] => set (st2 := s); set (rest := bind m k)
  end.
  assert (H2 : Monitor.db_metrics st2 = D).
  { unfold st2, D, response_time_sample, availability_sample. simpl.
    now rewrite <- app_assoc. }
  assert (Hrest : Monitor.db_metrics (exec rest st2) = D).
  { rewrite <- H2. unfold rest, exec, bind.
    destruct (code >=? 400)%Z.
    - pose proof (create_alert_frame "availability" "critical" 100 0
                    (MsgEndpointStatus (name endpoint) code) "system" st2)
        as (_ & _ & F & _).
      unfold exec in F.
      destruct (create_alert _ _ _ _ _ _ st2) as [[[]|e] st3]; simpl in *; [|exact F].
      rewrite <- F.
      apply (check_alerts_frame "response_time" response_time (name endpoint) st3).
    - unfold ret.
      apply (check_alerts_frame "response_time" response_time (name endpoint) st2). }
  unfold exec in Hrest.
  destruct (rest st2) as [[[]|e] st3]; simpl in *; [exact Hrest|].
  destruct e; simpl; try exact Hrest.
  pose proof (create_alert_frame "availability" "critical" 100 0
                (MsgEndpointTimeout (name endpoint) (default 10%Q (timeout endpoint)))
                "system" st3) as (_ & _ & F & _).
  unfold exec in F. now rewrite F.
Qed.

Lemma checks_keep_open_alert http pre :
  Forall (fun e => http e <> Failed Timeout) pre ->
  forall st,
    has_open (Monitor.alerts st) "availability" = true ->
    exists st1,
      for_each pre (fun e => check_endpoint e (http e)) st = (Normal tt, st1)
      /\ has_open (Monitor.alerts st1) "availability" = true.
Proof.
  induction 1 as [|ep pre Hep _ IH]; intros st Ho; simpl.
  - exists st. auto.
  - unfold bind.
    pose proof (check_endpoint_raises_cases st ep (http ep)) as Hr.
    pose proof (J_check_endpoint (extends (Monitor.alerts st))
                  (create_alert_extends (Monitor.alerts st)) ep (http ep) st) as Hx.
    unfold result in Hr. unfold exec in Hx.
    destruct (check_endpoint ep (http ep) st) as [[[]|e] st1]; simpl in *.
    + apply IH. destruct Hx as [new Hnew]; [exists []; now rewrite app_nil_r|].
      rewrite Hnew, has_open_app, Ho. reflexivity.
    + destruct (proj1 (Hr e) eq_refl) as (Hto & _). contradiction.
Qed.

(** X12. Once an availability alert is open, a tick of the endpoint
    collector stops at the first endpoint that times out: the endpoints
    listed after it are not checked in that tick, which ends with the error
    log entry and the 5-second pause. *)
Theorem endpoint_tick_stops_at_timeout :
  forall (st : Monitor.t) (http : Endpoint -> http_outcome)
         (pre post : list Endpoint) (endpoint : Endpoint),
    Config.endpoints (Monitor.config st) = pre ++ endpoint :: post ->
    has_open (Monitor.alerts st) "availability" = true ->
    Forall (fun e => http e <> Failed Timeout) pre ->
    http endpoint = Failed Timeout ->
    exec (monitor_web_endpoints http) st
    = exec (logging (LogError "endpoint monitoring" AttributeError) >> sleep 5)
        (exec (for_each pre (fun e => check_endpoint e (http e))) st).
Proof.
  intros st http pre post endpoint Heps Ho Hpre Hto.
  destruct (checks_keep_open_alert http pre Hpre st Ho) as (st1 & E1 & Ho1).
  unfold monitor_web_endpoints, exec, try_catch. unfold bind at 1. unfold gets at 1.
  rewrite Heps. unfold bind at 1. rewrite for_each_app. unfold bind at 1.
  rewrite E1. simpl for_each. unfold bind at 1.
  assert (E2 : check_endpoint endpoint (http endpoint) st1 = (Raised AttributeError, st1)).
  { rewrite Hto. unfold check_endpoint, try_catch, raise.
    now apply create_alert_blocked. }
  rewrite E2. reflexivity.
Qed.

Lemma endpoint_tick_stops_at_timeout_witness :
  let st := exec (check_endpoint api (Failed Timeout)) (init default_config epoch) in
  let http := fun _ : Endpoint => Failed Timeout in
  exec (monitor_web_endpoints http) st
  = exec (logging (LogError "endpoint monitoring" AttributeError) >> sleep 5)
      (exec (for_each [] (fun e => check_endpoint e (http e))) st).
Proof.
  apply (endpoint_tick_stops_at_timeout
           (exec (check_endpoint api (Failed Timeout)) (init default_config epoch))
           (fun _ => Failed Timeout) [] (tl (Config.endpoints default_config)) api).
  - reflexivity.
  - reflexivity.
  - constructor.
  - reflexivity.
Defined.

Lemma check_alerts_blocked metric_type value source st thresholds w :
  Config.alerts (Monitor.config st) !! metric_type = Some thresholds ->
  warning thresholds = Some w ->
  (w <= value)%Q ->
  has_open (Monitor.alerts st) metric_type = true ->
  check_alerts metric_type value source st = (Raised AttributeError, st).
Proof.
  intros Hth Hw Hle Ho. unfold check_alerts, bind, gets. rewrite Hth, Hw.
  rewrite (proj2 (geq_true value w) Hle).
  destruct (critical thresholds) as [c|]; [destruct (geq value c)|];
    now apply create_alert_blocked.
Qed.

Lemma add_metric_keeps metric_type value unit source metadata st :
  exists st1,
    add_metric metric_type value unit source metadata st = (Normal tt, st1)
    /\ Monitor.config st1 = Monitor.config st
    /\ Monitor.alerts st1 = Monitor.alerts st
    /\ Monitor.log st1 = Monitor.log st.
Proof. rewrite add_metric_spec. eexists. split; [reflexivity|]. simpl. auto. Qed.

(** X13. While a cpu_usage alert is open, a system tick whose CPU reading
    reaches the cpu_usage warning bound never gets to the memory and disk
    checks: whatever the memory and disk readings, the alert list is left
    as it was and the tick ends with the error log entry. *)
Theorem system_tick_masked_by_open_cpu_alert :
  forall (st : Monitor.t) (cpu_percent memory_percent disk_percent bytes_sent bytes_recv : Q)
         (thresholds : Thresholds) (w : Q),
    Config.alerts (Monitor.config st) !! "cpu_usage" = Some thresholds ->
    warning thresholds = Some w ->
    (w <= cpu_percent)%Q ->
    has_open (Monitor.alerts st) "cpu_usage" = true ->
    let st' :=
      exec (monitor_system_metrics cpu_percent memory_percent disk_percent
              bytes_sent bytes_recv) st in
    Monitor.alerts st' = Monitor.alerts st
    /\ Monitor.log st'
       = Monitor.log st ++ [LogError "system metrics monitoring" AttributeError].
Proof.
  intros st cpu mem disk sent recv th w Hth Hw Hle Ho.
  cbv zeta. unfold monitor_system_metrics, exec, try_catch.
  destruct (add_metric_keeps "cpu_usage" cpu "percent" "system" None st)
    as (st1 & E1 & C1 & A1 & L1).
  destruct (add_metric_keeps "memory_usage" mem "percent" "system" None st1)
    as (st2 & E2 & C2 & A2 & L2).
  destruct (add_metric_keeps "disk_usage" disk "percent" "system" None st2)
    as (st3 & E3 & C3 & A3 & L3).
  destruct (add_metric_keeps "network_bytes_sent" sent "bytes" "system" None st3)
    as (st4 & E4 & C4 & A4 & L4).
  destruct (add_metric_keeps "network_bytes_recv" recv "bytes" "system" None st4)
    as (st5 & E5 & C5 & A5 & L5).
  assert (E6 : check_alerts "cpu_usage" cpu "system" st5 = (Raised AttributeError, st5)).
  { apply (check_alerts_blocked "cpu_usage" cpu "system" st5 th w); try assumption.
    - now rewrite C5, C4, C3, C2, C1.
    - now rewrite A5, A4, A3, A2, A1. }
  unfold bind. rewrite E1, E2, E3, E4, E5, E6. simpl.
  split; [congruence|]. f_equal. congruence.
Qed.

Lemma system_tick_masked_by_open_cpu_alert_witness :
  let st' := exec (monitor_system_metrics 80 99 99 0 0) st_warning_open in
  Monitor.alerts st' = Monitor.alerts st_warning_open
  /\ Monitor.log st'
     = Monitor.log st_warning_open
       ++ [LogError "system metrics monitoring" AttributeError].
Proof.
  apply (system_tick_masked_by_open_cpu_alert st_warning_open 80 99 99 0 0
           {| warning := Some 70%Q; critical := Some 90%Q |} 70%Q).
  - reflexivity.
  - reflexivity.
  - discriminate.
  - reflexivity.
Defined.

(** X14. [check_alerts] appends at most one alert, and only an unresolved
    alert for the checked type and value whose recorded bound the value
    reaches: critical with the critical bound when that is reached,
    otherwise warning with the warning bound; it never appends an alert for
    a type without thresholds or a value below its bound. *)
Theorem check_alerts_appends :
  forall (st : Monitor.t) (metric_type source : string) (value : Q),
    exists new,
      Monitor.alerts (exec (check_alerts metric_type value source) st)
      = Monitor.alerts st ++ new
      /\ (length new <= 1)%nat
      /\ Forall (fun a =>
                   exists thresholds,
                     Config.alerts (Monitor.config st) !! metric_type = Some thresholds
                     /\ threshold_alert metric_type value thresholds a)
           new.
Proof.
  intros st metric_type source value.
  assert (Hnone : exists new,
             Monitor.alerts st = Monitor.alerts st ++ new /\ (length new <= 1)%nat
             /\ Forall (fun a =>
                          exists thresholds,
                            Config.alerts (Monitor.config st) !! metric_type
                            = Some thresholds
                            /\ threshold_alert metric_type value thresholds a) new).
  { exists []. rewrite app_nil_r. repeat split; [simpl; lia | constructor]. }
  assert (Hcall : forall severity thr message,
             (forall a, a = new_alert metric_type severity thr value message source st ->
                        exists thresholds,
                          Config.alerts (Monitor.config st) !! metric_type = Some thresholds
                          /\ threshold_alert metric_type value thresholds a) ->
             exists new,
               Monitor.alerts
                 (exec (create_alert metric_type severity thr value message source) st)
               = Monitor.alerts st ++ new /\ (length new <= 1)%nat
               /\ Forall (fun a =>
                            exists thresholds,
                              Config.alerts (Monitor.config st) !! metric_type
                              = Some thresholds
                              /\ threshold_alert metric_type value thresholds a) new).
  { intros sev thr msg Hgood. unfold exec.
    destruct (create_alert_cases metric_type sev thr value msg source st)
      as [[_ E]|[_ E]]; rewrite E; simpl; [exact Hnone|].
    rewrite record_alert_alerts. eexists. split; [reflexivity|]. split; [simpl; lia|].
    constructor; [|constructor]. now apply Hgood. }
  unfold check_alerts, exec, bind, gets.
  destruct (Config.alerts (Monitor.config st) !! metric_type) as [th|] eqn:Hth;
    [|exact Hnone].
  destruct (critical th) as [c|] eqn:Hc.
  - destruct (geq value c) eqn:Hg.
    + apply Hcall. intros a ->. exists th. split; [reflexivity|].
      unfold threshold_alert. simpl. repeat split; [now apply geq_true|].
      left. auto.
    + destruct (warning th) as [w|] eqn:Hw; [|exact Hnone].
      destruct (geq value w) eqn:Hgw; [|exact Hnone].
      apply Hcall. intros a ->. exists th. split; [reflexivity|].
      unfold threshold_alert. simpl. repeat split; [now apply geq_true|].
      right. repeat split; [exact Hw|]. rewrite Hc.
      apply Qnot_le_lt. intros Hle. apply geq_true in Hle. congruence.
  - destruct (warning th) as [w|] eqn:Hw; [|exact Hnone].
    destruct (geq value w) eqn:Hgw; [|exact Hnone].
    apply Hcall. intros a ->. exists th. split; [reflexivity|].
    unfold threshold_alert. simpl. repeat split; [now apply geq_true|].
    right. repeat split; [exact Hw|]. now rewrite Hc.
Qed.

(** ** More on the trend predictor *)

Lemma predict_metric_prediction_alert st0 metric_type :
  In metric_type ["cpu_usage"; "memory_usage"; "disk_usage"] ->
  preserves (grown_by (prediction_alert st0) st0) (predict_metric metric_type).
Proof.
  intros Hmt st H. unfold exec. rewrite predict_metric_spec.
  pose proof H as (Hcfg & _ & Hdb & Hclk & _).
  destruct (length (history st metric_type) <? 20)%nat; [exact H|].
  destruct (Config.alerts (Monitor.config st) !! metric_type) as [th|] eqn:Hth; [|exact H].
  destruct (geq _ _) eqn:Hg; [|exact H].
  apply create_alert_grown_by; [exact H|].
  assert (Hp : prediction st metric_type = prediction st0 metric_type).
  { unfold prediction. now rewrite (history_frame st0 st metric_type Hdb Hclk), Hclk. }
  unfold prediction_alert. cbn [new_alert PerformanceAlert.metric_type
    PerformanceAlert.resolved PerformanceAlert.current_value PerformanceAlert.threshold].
  split; [exact Hmt|]. split; [reflexivity|]. split; [exact Hp|].
  split; [now apply geq_true|].
  exists th. split; [now rewrite <- Hcfg | reflexivity].
Qed.

(** X15. Every alert a run of the trend predictor appends is for cpu_usage,
    memory_usage or disk_usage, a type with configured thresholds; it
    records as threshold the critical bound of that type (90 when the
    thresholds name none) and as current value the projection, which is at
    least that threshold. *)
Theorem predictive_alerts_content :
  forall st : Monitor.t,
    exists new,
      Monitor.alerts (exec generate_predictive_alerts st) = Monitor.alerts st ++ new
      /\ Forall (prediction_alert st) new.
Proof.
  intros st.
  assert (H : grown_by (prediction_alert st) st (exec generate_predictive_alerts st)).
  { apply (preserves_for_each (grown_by (prediction_alert st) st)).
    - intros mt Hmt. now apply predict_metric_prediction_alert.
    - apply grown_by_refl. }
  destruct H as (_ & _ & _ & _ & new & H1 & H2). now exists new.
Qed.

Lemma line_sums (a b : Q) times values :
  Forall2 (fun t v => (v == a + b * t)%Q) times values ->
  (sum values == a * len times + b * sum times)%Q
  /\ (sum_products times values
      == a * sum times + b * sum (map (fun t => (t * t)%Q) times))%Q.
Proof.
  induction 1 as [|t v times values Hv _ [IH1 IH2]].
  - unfold sum_products, sum, len. simpl. split; ring.
  - unfold sum_products in *. simpl. rewrite !sum_cons, len_cons, IH1, IH2, Hv.
    split; ring.
Qed.

Lemma slope_on_line (a b : Q) times values :
  Forall2 (fun t v => (v == a + b * t)%Q) times values ->
  ~ (denominator times == 0)%Q ->
  (slope times values == b)%Q.
Proof.
  intros Hline Hd. rewrite slope_when_defined by exact Hd.
  destruct (line_sums a b times values Hline) as [H1 H2].
  rewrite H1, H2. unfold denominator in *. field. exact Hd.
Qed.

(** X16. On samples that lie exactly on a line [v = a + b * t] over the
    time coordinate, at two different times or more, [slope] returns
    exactly [b]. *)
Theorem slope_exact_on_line :
  forall (a b : Q) (times values : list Q),
    Forall2 (fun t v => (v == a + b * t)%Q) times values ->
    ~ (denominator times == 0)%Q ->
    (slope times values == b)%Q.
Proof. intros. now apply (slope_on_line a). Qed.

Lemma slope_exact_on_line_witness :
  (slope [0; 1; 2] [5; 7; 9] == 2)%Q.
Proof.
  apply (slope_exact_on_line 5 2 [0; 1; 2] [5; 7; 9])%Q.
  - repeat constructor.
  - vm_compute. intros H. discriminate H.
Defined.

Lemma hours_ago_hours now m :
  (hours_ago now m == hours now - hours (PerformanceMetric.timestamp m))%Q.
Proof.
  unfold hours_ago, hours. unfold Z.sub. rewrite inject_Z_plus, inject_Z_opp.
  field. unfold micros_per_hour, micros_per_second. discriminate.
Qed.

(** X17. For a metric that changes linearly with time, [r] per hour, the
    projection of the trend predictor is the latest value minus [6 * r]:
    the time coordinate counts hours back from now, so a metric that rises
    is projected to fall and one that falls is projected to rise. *)
Theorem projection_of_linear_trend :
  forall (now : Z) (samples : list PerformanceMetric.t) (a r : Q),
    Forall (fun m => (PerformanceMetric.value m
                      == a + r * hours (PerformanceMetric.timestamp m))%Q) samples ->
    ~ (denominator (map (hours_ago now) samples) == 0)%Q ->
    (predicted_value (map (hours_ago now) samples) (map PerformanceMetric.value samples)
     == current_value (map PerformanceMetric.value samples) - 6 * r)%Q.
Proof.
  intros now samples a r Hline Hd.
  assert (Hs : (slope (map (hours_ago now) samples) (map PerformanceMetric.value samples)
                == - r)%Q).
  { apply (slope_on_line (a + r * hours now)); [|exact Hd].
    clear Hd. induction Hline as [|m samples Hm _ IH]; simpl; [constructor|].
    constructor; [|exact IH].
    rewrite Hm, hours_ago_hours. ring. }
  unfold predicted_value. rewrite Hs. ring.
Qed.

Lemma Forall_Qeq_bool {A} (f g : A -> Q) (l : list A) :
  forallb (fun x => Qeq_bool (f x) (g x)) l = true ->
  Forall (fun x => (f x == g x)%Q) l.
Proof.
  intros H. apply List.Forall_forall. intros x Hx.
  apply Qeq_bool_iff. rewrite forallb_forall in H. now apply H.
Qed.

Lemma projection_of_linear_trend_witness :
  (predicted_value (map (hours_ago (Monitor.clock st_falling)) (history st_falling "cpu_usage"))
     (map PerformanceMetric.value (history st_falling "cpu_usage"))
   == current_value (map PerformanceMetric.value (history st_falling "cpu_usage"))
      - 6 * (-2))%Q.
Proof.
  apply (projection_of_linear_trend (Monitor.clock st_falling)
           (history st_falling "cpu_usage") (100 + 2 * hours epoch) (-2))%Q.
  - apply (Forall_Qeq_bool PerformanceMetric.value
             (fun m => (100 + 2 * hours epoch
                        + -2 * hours (PerformanceMetric.timestamp m))%Q)).
    vm_compute. reflexivity.
  - vm_compute. intros H. discriminate H.
Defined.

(** ** When the anomaly detector completes *)

(** A loop of [create_alert] requests completes exactly when the requested
    metric types are pairwise distinct and none of them has an unresolved
    alert; it then appends one alert per request. *)
Lemma requests_complete {A} (ty : A -> string) (req : A -> M Datatypes.unit) :
  (forall x st, exists severity threshold current_value message source,
      req x st = create_alert (ty x) severity threshold current_value message source st) ->
  forall (xs : list A) (st : Monitor.t),
    (result (for_each xs req) st = Normal tt
     <-> NoDup (map ty xs)
         /\ Forall (fun x => has_open (Monitor.alerts st) (ty x) = false) xs)
    /\ (result (for_each xs req) st = Normal tt
        \/ result (for_each xs req) st = Raised AttributeError)
    /\ (result (for_each xs req) st = Normal tt ->
        map PerformanceAlert.metric_type (Monitor.alerts (exec (for_each xs req) st))
        = map PerformanceAlert.metric_type (Monitor.alerts st) ++ map ty xs).
Proof.
  intros Hreq. induction xs as [|x xs IH]; intros st.
  - simpl. unfold result, exec, ret. simpl. rewrite app_nil_r.
    repeat split; auto; constructor.
  - destruct (Hreq x st) as (sev & thr & cur & msg & src & E).
    simpl. unfold result, exec, bind. rewrite E.
    destruct (create_alert_cases (ty x) sev thr cur msg src st) as [[Ho E']|[Ho E']];
      rewrite E'; simpl.
    + split; [|split].
      * split; [intros H; discriminate H|].
        intros [_ H]. inversion H; subst. congruence.
      * now right.
      * intros H. discriminate H.
    + set (st1 := record_alert (new_alert (ty x) sev thr cur msg src st) st).
      destruct (IH st1) as (IH1 & IH2 & IH3). unfold result, exec in *.
      assert (Hopen : forall t, has_open (Monitor.alerts st1) t
                                = has_open (Monitor.alerts st) t || String.eqb (ty x) t).
      { intros t. unfold st1. rewrite record_alert_alerts, has_open_app.
        unfold has_open at 2. simpl. rewrite is_open_new_alert. now rewrite orb_false_r. }
      split; [|split].
      * rewrite IH1. split.
        -- intros [Hnd Hall]. split.
           ++ apply NoDup_cons. split; [|exact Hnd].
              intros Hin. apply list_elem_of_In, in_map_iff in Hin as (y & Hy & Hin).
              rewrite List.Forall_forall in Hall. specialize (Hall y Hin).
              rewrite Hopen, Hy, String.eqb_refl, orb_true_r in Hall. discriminate.
           ++ constructor; [exact Ho|].
              apply List.Forall_forall. intros y Hy.
              rewrite List.Forall_forall in Hall. specialize (Hall y Hy).
              rewrite Hopen in Hall. now apply orb_false_elim in Hall as [Hall _].
        -- intros [Hnd Hall]. apply NoDup_cons in Hnd as [Hx Hnd].
           inversion Hall as [|? ? _ Hall']; subst. split; [exact Hnd|].
           apply List.Forall_forall. intros y Hy.
           rewrite List.Forall_forall in Hall'. rewrite Hopen, (Hall' y Hy). simpl.
           destruct (String.eqb_spec (ty x) (ty y)) as [Heq|]; [|reflexivity].
           exfalso. apply Hx. rewrite Heq. apply list_elem_of_In, in_map_iff.
           now exists y.
      * exact IH2.
      * intros H. rewrite (IH3 H). unfold st1. rewrite record_alert_alerts, map_app.
        simpl. now rewrite <- app_assoc.
Qed.

(** X19. With a square root that is never negative, [detect_anomalies]
    returns normally exactly when the anomalous samples of the window have
    pairwise distinct metric types, none of which has an unresolved alert;
    it then appends one alert per anomalous sample, in order. In every
    other case it raises AttributeError. *)
Theorem detect_anomalies_completes_iff :
  forall (sqrt : Q -> Q) (st : Monitor.t),
    (forall x, (0 <= sqrt x)%Q) ->
    let anomalous := anomalous_samples sqrt (recent st) in
    (result (detect_anomalies sqrt) st = Normal tt
     <-> NoDup (map PerformanceMetric.metric_type anomalous)
         /\ Forall (fun m => has_open (Monitor.alerts st) (PerformanceMetric.metric_type m)
                             = false) anomalous)
    /\ (result (detect_anomalies sqrt) st = Normal tt
        \/ result (detect_anomalies sqrt) st = Raised AttributeError)
    /\ (result (detect_anomalies sqrt) st = Normal tt ->
        map PerformanceAlert.metric_type (Monitor.alerts (exec (detect_anomalies sqrt) st))
        = map PerformanceAlert.metric_type (Monitor.alerts st)
          ++ map PerformanceMetric.metric_type anomalous).
Proof.
  intros sqrt st Hsqrt anomalous.
  unfold result, exec. rewrite (detect_anomalies_spec sqrt Hsqrt).
  apply (requests_complete PerformanceMetric.metric_type (anomaly_alert sqrt (recent st))).
  intros m s. unfold anomaly_alert. do 5 eexists. reflexivity.
Qed.

Lemma detect_anomalies_completes_iff_witness :
  let anomalous := anomalous_samples Qsqrt (recent st_outlier) in
  (result (detect_anomalies Qsqrt) st_outlier = Normal tt
   <-> NoDup (map PerformanceMetric.metric_type anomalous)
       /\ Forall (fun m => has_open (Monitor.alerts st_outlier)
                             (PerformanceMetric.metric_type m) = false) anomalous)
  /\ (result (detect_anomalies Qsqrt) st_outlier = Normal tt
      \/ result (detect_anomalies Qsqrt) st_outlier = Raised AttributeError)
  /\ (result (detect_anomalies Qsqrt) st_outlier = Normal tt ->
      map PerformanceAlert.metric_type
        (Monitor.alerts (exec (detect_anomalies Qsqrt) st_outlier))
      = map PerformanceAlert.metric_type (Monitor.alerts st_outlier)
        ++ map PerformanceMetric.metric_type anomalous).
Proof.
  apply (detect_anomalies_completes_iff Qsqrt st_outlier). intros x. apply Qsqrt_nonneg.
Defined.

(** ** The analytics loop *)

(** X20. An iteration of the analytics loop never lets an exception
    escape; and when anomaly detection is enabled and raises, the trend
    predictor is not run in that iteration, which ends in the state the
    detector left, with the error log entry and the 60-second pause. *)
Theorem analytics_iteration_after_error :
  forall (sqrt : Q -> Q) (st : Monitor.t) (e : exn),
    Config.anomaly_detection (Monitor.config st) = true ->
    result (detect_anomalies sqrt) st = Raised e ->
    result (ai_analytics_loop sqrt) st = Normal tt
    /\ exec (ai_analytics_loop sqrt) st
       = exec (logging (LogError "AI analytics" e) >> sleep 60)
           (exec (detect_anomalies sqrt) st).
Proof.
  intros sqrt st e Hflag Hraise. unfold result in Hraise.
  destruct (detect_anomalies sqrt st) as [r st1] eqn:E. simpl in Hraise. subst r.
  assert (Hloop : ai_analytics_loop sqrt st
                  = (logging (LogError "AI analytics" e) >> sleep 60) st1).
  { unfold ai_analytics_loop, try_catch. unfold bind at 1. unfold gets at 1.
    rewrite Hflag. unfold bind at 1. now rewrite E. }
  unfold result, exec. rewrite Hloop, E. split; reflexivity.
Qed.

Lemma analytics_iteration_after_error_witness :
  let st := exec (detect_anomalies Qsqrt) st_outlier in
  result (ai_analytics_loop Qsqrt) st = Normal tt
  /\ exec (ai_analytics_loop Qsqrt) st
     = exec (logging (LogError "AI analytics" AttributeError) >> sleep 60)
         (exec (detect_anomalies Qsqrt) st).
Proof.
  apply (analytics_iteration_after_error Qsqrt (exec (detect_anomalies Qsqrt) st_outlier)
           AttributeError).
  - reflexivity.
  - vm_compute. reflexivity.
Defined.

(** ** Merging the user configuration *)

Lemma merge_value_dicts update base :
  merge_value (JDict update) (Some (JDict base)) = JDict (_deep_merge base update).
Proof.
  unfold _deep_merge. simpl. f_equal. revert base.
  induction update as [|[key v] rest IH]; intros base; simpl; [reflexivity|].
  apply IH.
Qed.

Lemma merge_value_spec value old :
  merge_value value old
  = match value, old with
    | JDict update, Some (JDict base) => JDict (_deep_merge base update)
    | _, _ => value
    end.
Proof.
  destruct value as [| | | | |u]; try reflexivity.
  destruct old as [[| | | | |b]|]; try reflexivity.
  apply merge_value_dicts.
Qed.

Lemma deep_merge_cons base key v rest :
  _deep_merge base ((key, v) :: rest)
  = _deep_merge (dict_set key (merge_value v (dict_lookup key base)) base) rest.
Proof. reflexivity. Qed.

Lemma dict_lookup_set key' key value d :
  dict_lookup key' (dict_set key value d)
  = if String.eqb key key' then Some value else dict_lookup key' d.
Proof.
  unfold dict_lookup. induction d as [|[k v] d IH]; simpl.
  - destruct (String.eqb key key'); reflexivity.
  - destruct (String.eqb_spec k key) as [->|Hne]; simpl.
    + destruct (String.eqb key key'); reflexivity.
    + destruct (String.eqb_spec k key') as [->|Hne'].
      * destruct (String.eqb_spec key key') as [Heq|_]; [congruence | reflexivity].
      * exact IH.
Qed.

Lemma dict_lookup_cons key k v d :
  dict_lookup key ((k, v) :: d)
  = if String.eqb k key then Some v else dict_lookup key d.
Proof. unfold dict_lookup. simpl. destruct (String.eqb k key); reflexivity. Qed.

Lemma dict_lookup_absent key d :
  ~ In key (map fst d) -> dict_lookup key d = None.
Proof.
  unfold dict_lookup. induction d as [|[k v] d IH]; simpl; intros H; [reflexivity|].
  destruct (String.eqb_spec k key) as [->|Hne]; [exfalso; apply H; now left|].
  apply IH. intros Hin. apply H. now right.
Qed.

Lemma deep_merge_lookup key update :
  NoDup (map fst update) ->
  forall base,
    dict_lookup key (_deep_merge base update)
    = match dict_lookup key update with
      | Some v => Some (merge_value v (dict_lookup key base))
      | None => dict_lookup key base
      end.
Proof.
  induction update as [|[k v] rest IH]; intros Hnd base; [reflexivity|].
  simpl in Hnd. apply NoDup_cons in Hnd as [Hk Hnd].
  rewrite deep_merge_cons, (IH Hnd), dict_lookup_set, dict_lookup_cons.
  destruct (String.eqb_spec k key) as [->|Hne].
  - rewrite dict_lookup_absent; [reflexivity|].
    intros Hin. apply Hk. now apply list_elem_of_In.
  - reflexivity.
Qed.

(** X21. After [_deep_merge], a key of the update (whose keys are pairwise
    distinct) holds the update's value, except that where the base and the
    update both hold a dict under that key the two dicts are merged in the
    same way; every other key holds what the base held. *)
Theorem deep_merge_lookup_spec :
  forall (base update : list (string * json)) (key : string),
    NoDup (map fst update) ->
    dict_lookup key (_deep_merge base update)
    = match dict_lookup key update with
      | Some v =>
          Some match v, dict_lookup key base with
               | JDict u, Some (JDict b) => JDict (_deep_merge b u)
               | _, _ => v
               end
      | None => dict_lookup key base
      end.
Proof.
  intros base update key Hnd. rewrite (deep_merge_lookup key update Hnd).
  destruct (dict_lookup key update); [|reflexivity].
  now rewrite merge_value_spec.
Qed.

Lemma deep_merge_lookup_spec_witness :
  dict_lookup "monitoring"
    (_deep_merge
       [("monitoring", JDict [("interval_seconds", JNum 30); ("buffer_size", JNum 1000)]);
        ("endpoints", JList [])]
       [("monitoring", JDict [("buffer_size", JNum 50)])])
  = Some (JDict (_deep_merge [("interval_seconds", JNum 30); ("buffer_size", JNum 1000)]
                   [("buffer_size", JNum 50)])).
Proof.
  apply (deep_merge_lookup_spec
           [("monitoring", JDict [("interval_seconds", JNum 30); ("buffer_size", JNum 1000)]);
            ("endpoints", JList [])]
           [("monitoring", JDict [("buffer_size", JNum 50)])] "monitoring").
  apply NoDup_singleton.
Defined.

(** X22. [_deep_merge] never drops a key: the keys of the result are
    exactly the keys of the base together with the keys of the update. *)
Theorem deep_merge_keys :
  forall (base update : list (string * json)) (key : string),
    is_Some (dict_lookup key (_deep_merge base update))
    <-> is_Some (dict_lookup key base) \/ is_Some (dict_lookup key update).
Proof.
  intros base update key. revert base.
  induction update as [|[k v] rest IH]; intros base.
  - simpl. split; [auto | intros [H|[x H]]; [exact H | discriminate H]].
  - rewrite deep_merge_cons, IH, dict_lookup_set, dict_lookup_cons.
    destruct (String.eqb_spec k key) as [->|Hne].
    + split; [intros _; right; eauto | intros _; left; eauto].
    + reflexivity.
Qed.

Lemma json_nested_ind (P : json -> Prop) :
  P JNull -> (forall b, P (JBool b)) -> (forall q, P (JNum q)) -> (forall s, P (JStr s)) ->
  (forall l, P (JList l)) ->
  (forall d, Forall (fun item => P (snd item)) d -> P (JDict d)) ->
  forall j, P j.
Proof.
  intros Hnull Hbool Hnum Hstr Hlist Hdict. fix IH 1. intros [|b|q|s|l|d].
  - exact Hnull.
  - apply Hbool.
  - apply Hnum.
  - apply Hstr.
  - apply Hlist.
  - apply Hdict. induction d as [|[k v] d IHd]; constructor; [apply IH | exact IHd].
Qed.

Lemma distinct_keys_dict d :
  distinct_keys (JDict d)
  <-> NoDup (map fst d) /\ Forall (fun item => distinct_keys (snd item)) d.
Proof.
  simpl. split; intros [Hnd Hall]; (split; [exact Hnd|]); clear Hnd.
  - induction d as [|[k v] d IH]; constructor; [apply Hall | apply IH, Hall].
  - induction d as [|[k v] d IH]; [exact I|].
    inversion Hall; subst. split; [assumption | now apply IH].
Qed.

Lemma dict_set_same key value d :
  dict_lookup key d = Some value -> dict_set key value d = d.
Proof.
  induction d as [|[k v] d IH]; [discriminate|].
  rewrite dict_lookup_cons. simpl.
  destruct (String.eqb_spec k key) as [->|Hne].
  - now intros [= ->].
  - intros H. now rewrite IH.
Qed.

Lemma dict_lookup_In key value d :
  NoDup (map fst d) -> In (key, value) d -> dict_lookup key d = Some value.
Proof.
  induction d as [|[k v] d IH]; intros Hnd Hin; [contradiction|].
  simpl in Hnd. apply NoDup_cons in Hnd as [Hk Hnd]. rewrite dict_lookup_cons.
  destruct Hin as [[= -> ->]|Hin]; [now rewrite String.eqb_refl|].
  destruct (String.eqb_spec k key) as [->|Hne]; [|now apply IH].
  exfalso. apply Hk. apply list_elem_of_In, in_map_iff. now exists (key, value).
Qed.

(** An update whose every value is already merged into the base changes
    nothing. *)
Lemma deep_merge_stable update base :
  (forall key v, In (key, v) update ->
                 exists x, dict_lookup key base = Some x /\ merge_value v (Some x) = x) ->
  _deep_merge base update = base.
Proof.
  induction update as [|[k v] rest IH]; intros H; [reflexivity|].
  rewrite deep_merge_cons.
  destruct (H k v (or_introl eq_refl)) as (x & Hx & Hm).
  rewrite Hx, Hm, (dict_set_same k x base Hx).
  apply IH. intros key v' Hin. apply H. now right.
Qed.

Lemma merge_value_idempotent value :
  distinct_keys value ->
  merge_value value (Some value) = value
  /\ forall old, merge_value value (Some (merge_value value old)) = merge_value value old.
Proof.
  induction value as [|b|q|s|l|d IH] using json_nested_ind; intros Hwf;
    try (split; [reflexivity | intros old; reflexivity]).
  apply distinct_keys_dict in Hwf as [Hnd Hall].
  assert (Hself : merge_value (JDict d) (Some (JDict d)) = JDict d).
  { rewrite merge_value_dicts. f_equal. apply deep_merge_stable.
    intros key v Hin. exists v. split; [now apply dict_lookup_In|].
    rewrite List.Forall_forall in IH, Hall.
    apply (IH (key, v) Hin), (Hall (key, v) Hin). }
  split; [exact Hself|]. intros old.
  destruct old as [[| | | | |b]|]; try exact Hself.
  rewrite merge_value_dicts, merge_value_dicts. f_equal. apply deep_merge_stable.
  intros key v Hin. exists (merge_value v (dict_lookup key b)). split.
  - rewrite (deep_merge_lookup key d Hnd), (dict_lookup_In key v d Hnd Hin). reflexivity.
  - rewrite List.Forall_forall in IH, Hall.
    apply (IH (key, v) Hin), (Hall (key, v) Hin).
Qed.

(** X23. Merging the same update a second time changes nothing, for an
    update whose dicts have pairwise distinct keys at every depth. *)
Theorem deep_merge_idempotent :
  forall base update : list (string * json),
    distinct_keys (JDict update) ->
    _deep_merge (_deep_merge base update) update = _deep_merge base update.
Proof.
  intros base update Hwf.
  destruct (merge_value_idempotent (JDict update) Hwf) as [_ H].
  specialize (H (Some (JDict base))). rewrite !merge_value_dicts in H.
  now injection H.
Qed.

Lemma deep_merge_idempotent_witness :
  let base := [("monitoring", JDict [("interval_seconds", JNum 30); ("buffer_size", JNum 1000)]);
               ("endpoints", JList [])] in
  let update := [("monitoring", JDict [("buffer_size", JNum 50)]); ("websocket", JBool true)] in
  _deep_merge (_deep_merge base update) update = _deep_merge base update.
Proof.
  apply (deep_merge_idempotent
           [("monitoring", JDict [("interval_seconds", JNum 30); ("buffer_size", JNum 1000)]);
            ("endpoints", JList [])]
           [("monitoring", JDict [("buffer_size", JNum 50)]); ("websocket", JBool true)]).
  simpl. repeat split;
    apply NoDup_ListNoDup; repeat constructor; simpl; intuition discriminate.
Defined.

(** ** Recommendations *)

Lemma sum_le_bound (bound : Q) (values : list Q) :
  Forall (fun v => (v <= bound)%Q) values -> (sum values <= bound * len values)%Q.
Proof.
  induction 1 as [|v values Hv _ IH].
  - unfold sum, len. simpl. rewrite Qmult_0_r. apply Qle_refl.
  - rewrite sum_cons, len_cons.
    assert (E : (bound * (len values + 1) == bound + bound * len values)%Q) by ring.
    rewrite E. lra.
Qed.

Lemma mean_le_bound (bound : Q) (values : list Q) :
  values <> [] -> Forall (fun v => (v <= bound)%Q) values -> (mean values <= bound)%Q.
Proof.
  intros Hne H. pose proof (sum_le_bound bound values H) as Hs.
  assert (Hpos : (0 < len values)%Q).
  { destruct values as [|v values]; [congruence|].
    unfold len, Qlt. simpl. lia. }
  unfold mean. apply Qle_shift_div_r; [exact Hpos|exact Hs].
Qed.

Lemma buffered_values_within (metric_type : string) (bound : Q) (st : Monitor.t) :
  within metric_type bound st ->
  Forall (fun v => (v <= bound)%Q) (buffered_values metric_type st).
Proof.
  unfold within, buffered_values. induction 1 as [|m l Hm _ IH]; simpl; [constructor|].
  destruct (String.eqb (PerformanceMetric.metric_type m) metric_type) eqn:E; [|exact IH].
  apply String.eqb_eq in E. simpl. constructor; [exact (Hm E)|exact IH].
Qed.

Lemma recommend_within (metric_type : string) (bound : Q) (line : string) (st : Monitor.t) :
  within metric_type bound st -> recommend metric_type bound line st = [].
Proof.
  intros H. apply buffered_values_within in H. unfold recommend.
  destruct (buffered_values metric_type st) as [|v values] eqn:E; [reflexivity|].
  destruct (gt (mean (v :: values)) bound) eqn:G; [|reflexivity].
  apply gt_true in G. exfalso.
  apply (Qlt_not_le _ _ G), mean_le_bound; [discriminate|exact H].
Qed.

(** X24. When no buffered cpu_usage sample is above 70, no memory_usage
    sample above 75 and no response_time sample above 1000,
    [generate_recommendations] returns the line that the metrics are
    within optimal ranges; what other metric types show plays no part. *)
Theorem recommendations_within_bounds :
  forall st : Monitor.t,
    within "cpu_usage" 70 st ->
    within "memory_usage" 75 st ->
    within "response_time" 1000 st ->
    generate_recommendations st = optimal_ranges.
Proof.
  intros st Hc Hm Hr. unfold generate_recommendations.
  rewrite (recommend_within _ _ _ _ Hc), (recommend_within _ _ _ _ Hm),
    (recommend_within _ _ _ _ Hr).
  reflexivity.
Qed.

Lemma recommendations_within_bounds_witness :
  generate_recommendations st_calm = optimal_ranges.
Proof.
  apply recommendations_within_bounds;
    repeat constructor; simpl; intros E; try discriminate E;
    unfold Qle; simpl; lia.
Defined.
